(** * uptimer: the command-line driver (package main) and package config

    A shallow embedding of [main.go] and [config/config.go].  Go strings are
    byte strings ([String.string]); Go's [int], [time.Duration] and
    [time.Time] readings are integers ([Z]); a function returning
    [(value, error)] returns a sum; effects of [main] are threaded through a
    small state-and-exit monad whose state records a chronological trace. *)

From Stdlib Require Import String Ascii ZArith List Bool Lia.
Import ListNotations.

Local Open Scope string_scope.
Local Open Scope Z_scope.

Set Warnings "-register-all".

(** ** Package strings (the part used by [authFailedRetryFunc]) *)

Module strings.

(** [strings.HasPrefix(s, prefix)]: [len(s) >= len(prefix) && s[:len(prefix)] == prefix]. *)
Fixpoint HasPrefix (s prefix : string) {struct prefix} : bool :=
  match prefix, s with
  | EmptyString, _ => true
  | String _ _, EmptyString => false
  | String c prefix', String d s' => Ascii.eqb d c && HasPrefix s' prefix'
  end.

(** [strings.Index(s, substr)] started at byte offset [i]: the first offset
    at which [substr] occurs, or -1. *)
Fixpoint IndexFrom (i : Z) (s substr : string) : Z :=
  if HasPrefix s substr then i
  else match s with
       | EmptyString => -1
       | String _ s' => IndexFrom (i + 1) s' substr
       end.

Definition Index (s substr : string) : Z := IndexFrom 0 s substr.

(** [func Contains(s, substr string) bool { return Index(s, substr) >= 0 }] *)
Definition Contains (s substr : string) : bool := Index s substr >=? 0.

End strings.

(** ** Errors

    A Go [error] value.  The driver only tests errors against [nil] and
    prints them, so an error is its kind and the text it carries. *)

Inductive error : Type :=
| errorString (msg : string)                         (* errors.New, fmt.Errorf, os and exec errors *)
| SyntaxError                                        (* *json.SyntaxError *)
| UnmarshalTypeError (Value Type_ : string).         (* *json.UnmarshalTypeError *)

(** ** Package time: durations and clock readings in nanoseconds *)

Module time.

Definition Duration := Z.
Definition Time := Z.

Definition Nanosecond : Duration := 1.
Definition Microsecond : Duration := 1000 * Nanosecond.
Definition Millisecond : Duration := 1000 * Microsecond.
Definition Second : Duration := 1000 * Millisecond.
Definition Minute : Duration := 60 * Second.

(** [t.Add(d)] *)
Definition Add (t : Time) (d : Duration) : Time := t + d.

(** [t.Before(u)] *)
Definition Before (t u : Time) : bool := t <? u.

End time.

(** ** Package context

    What a supplier can observe of the runtime: the clock reading that
    [time.Now()] returns and the contexts created so far.  A context made by
    [WithCancel], [WithDeadline] or [WithTimeout] is a new object; [ctxId]
    numbers them in creation order, and a [CancelFunc] is known by the
    context it cancels. *)

Module context.

Inductive Context : Type :=
| Background
| cancelCtx (ctxId : nat) (parent : Context)
| timerCtx (ctxId : nat) (parent : Context) (deadline : time.Time).

Definition CancelFunc := nat.

Record Runtime : Type := mkRuntime {
  now : time.Time;          (* what time.Now() reads *)
  created : nat             (* contexts created so far *)
}.

(** [ctx.Deadline()] *)
Fixpoint Deadline (ctx : Context) : option time.Time :=
  match ctx with
  | Background => None
  | cancelCtx _ parent => Deadline parent
  | timerCtx _ _ d => Some d
  end.

(** The identity of a created context; [Background] has none. *)
Definition ident (ctx : Context) : option nat :=
  match ctx with
  | Background => None
  | cancelCtx i _ => Some i
  | timerCtx i _ _ => Some i
  end.

(** [context.WithCancel(parent)] *)
Definition WithCancel (parent : Context) (rt : Runtime) : (Context * CancelFunc) * Runtime :=
  let i := created rt in
  ((cancelCtx i parent, i), mkRuntime (now rt) (S i)).

(** [context.WithDeadline(parent, d)]: when the parent already ends sooner the
    result is a plain cancellable child, otherwise a timer context ending at [d]. *)
Definition WithDeadline (parent : Context) (d : time.Time) (rt : Runtime)
  : (Context * CancelFunc) * Runtime :=
  match Deadline parent with
  | Some cur =>
      if time.Before cur d then WithCancel parent rt
      else let i := created rt in ((timerCtx i parent d, i), mkRuntime (now rt) (S i))
  | None => let i := created rt in ((timerCtx i parent d, i), mkRuntime (now rt) (S i))
  end.

(** [context.WithTimeout(parent, timeout)] is
    [WithDeadline(parent, time.Now().Add(timeout))]. *)
Definition WithTimeout (parent : Context) (timeout : time.Duration) (rt : Runtime)
  : (Context * CancelFunc) * Runtime :=
  WithDeadline parent (time.Add (now rt) timeout) rt.

End context.

(** ** Packages crypto/tls and net/http: the configuration structs, with the
    zero value of every field that a composite literal leaves out *)

Module tls.

Record Config : Type := mkConfig {
  InsecureSkipVerify : bool    (* true: the server's certificate chain and host name are not verified *)
}.

End tls.

Module http.

Record Transport : Type := mkTransport {
  TLSClientConfig : option tls.Config;
  TLSHandshakeTimeout : time.Duration;
  ResponseHeaderTimeout : time.Duration;
  ExpectContinueTimeout : time.Duration;
  IdleConnTimeout : time.Duration
}.

(** [&http.Transport{TLSClientConfig: c}] *)
Definition Transport_lit (c : tls.Config) : Transport :=
  mkTransport (Some c) 0 0 0 0.

Record Client : Type := mkClient {
  Transport_ : option Transport;   (* nil: http.DefaultTransport *)
  Timeout : time.Duration          (* "A Timeout of zero means no timeout." *)
}.

(** [&http.Client{Transport: t}] *)
Definition Client_lit (t : Transport) : Client := mkClient (Some t) 0.



End http.

(** ** Package encoding/json, as [config.Load] uses it

    [json.Unmarshal(data, v)] first checks that [data] is one well-formed JSON
    text ([checkValid]) and then stores it into [v] by the shape of [v]'s
    type.  The text is parsed here into a [Value]; a string is kept unquoted
    (escapes resolved, bytes that are not UTF-8 replaced by U+FFFD, as
    [unquote] does) and a number keeps its literal, which is what the decoder
    hands to [strconv.ParseInt].  Offsets in error values are left out. *)

Module json.

Inductive Value : Type :=
| Null
| Bool (b : bool)
| Number (lit : string)
| Str (s : string)
| Array (elems : list Value)
| Object (members : list (string * Value)).

Definition code (c : ascii) : N := N_of_ascii c.
Definition chr (n : N) : ascii := ascii_of_N n.
Definition str1 (n : N) : string := String (chr n) EmptyString.

Definition between (lo hi : N) (c : ascii) : bool :=
  (lo <=? code c)%N && (code c <=? hi)%N.

Definition isByte (n : N) (c : ascii) : bool := (code c =? n)%N.

Definition quote : N := 34.
Definition backslash : N := 92.

(** The scanner's [isSpace]: space, tab, carriage return, line feed. *)
Definition isSpace (c : ascii) : bool := isByte 32 c || isByte 9 c || isByte 13 c || isByte 10 c.

Fixpoint skipSpace (s : string) : string :=
  match s with
  | String c r => if isSpace c then skipSpace r else s
  | EmptyString => s
  end.

Definition isDigit (c : ascii) : bool := between 48 57 c.

(** The longest run of decimal digits at the head of [s], and what follows. *)
Fixpoint digits (s : string) : string * string :=
  match s with
  | String c r =>
      if isDigit c then let (d, r') := digits r in (String c d, r') else (EmptyString, s)
  | EmptyString => (EmptyString, EmptyString)
  end.

(** A number literal: an optional minus sign; a zero, or a non-zero digit and
    more digits; optionally a point and one or more digits; optionally [e] or
    [E], an optional sign and one or more digits. *)
Definition scanNumber (s : string) : option (string * string) :=
  let (sign, s1) := match s with
                    | String c r => if isByte 45 c then (str1 45, r) else (EmptyString, s)
                    | EmptyString => (EmptyString, s)
                    end in
  match s1 with
  | String c r =>
      let intPart :=
        if isByte 48 c then Some (str1 48, r)
        else if between 49 57 c then let (d, r') := digits r in Some (String c d, r')
        else None in
      match intPart with
      | None => None
      | Some (ip, s2) =>
          let frac :=
            match s2 with
            | String c2 r2 =>
                if isByte 46 c2 then
                  let (d, r') := digits r2 in
                  match d with
                  | EmptyString => None
                  | _ => Some (String c2 d, r')
                  end
                else Some (EmptyString, s2)
            | EmptyString => Some (EmptyString, s2)
            end in
          match frac with
          | None => None
          | Some (fp, s3) =>
              let expo :=
                match s3 with
                | String c3 r3 =>
                    if isByte 101 c3 || isByte 69 c3 then
                      let (sg, r4) := match r3 with
                                      | String c4 r4 =>
                                          if isByte 43 c4 || isByte 45 c4
                                          then (String c4 EmptyString, r4)
                                          else (EmptyString, r3)
                                      | EmptyString => (EmptyString, r3)
                                      end in
                      let (d, r') := digits r4 in
                      match d with
                      | EmptyString => None
                      | _ => Some (String c3 (sg ++ d), r')
                      end
                    else Some (EmptyString, s3)
                | EmptyString => Some (EmptyString, s3)
                end in
              match expo with
              | None => None
              | Some (ep, s4) => Some (sign ++ ip ++ fp ++ ep, s4)
              end
          end
      end
  | EmptyString => None
  end.

(** *** Strings: escapes, UTF-16 surrogate pairs, UTF-8 *)

Definition hexVal (c : ascii) : option N :=
  if between 48 57 c then Some (code c - 48)%N
  else if between 97 102 c then Some (code c - 97 + 10)%N
  else if between 65 70 c then Some (code c - 65 + 10)%N
  else None.

(** Four hexadecimal digits at the head of [s]. *)
Definition hex4 (s : string) : option (N * string) :=
  match s with
  | String a (String b (String c (String d r))) =>
      match hexVal a, hexVal b, hexVal c, hexVal d with
      | Some x, Some y, Some z, Some w => Some ((((x * 16 + y) * 16 + z) * 16 + w)%N, r)
      | _, _, _, _ => None
      end
  | _ => None
  end.

(** [getu4]: the code unit of a leading [\uXXXX], if [s] starts with one. *)
Definition getu4 (s : string) : option (N * string) :=
  match s with
  | String b (String u r) => if isByte backslash b && isByte 117 u then hex4 r else None
  | _ => None
  end.

Definition RuneError : N := 65533.   (* U+FFFD *)

(** [utf16.IsSurrogate] *)
Definition IsSurrogate (r : N) : bool := (55296 <=? r)%N && (r <? 57344)%N.

(** [utf16.DecodeRune(r1, r2)] *)
Definition utf16_DecodeRune (r1 r2 : N) : N :=
  if (55296 <=? r1)%N && (r1 <? 56320)%N && (56320 <=? r2)%N && (r2 <? 57344)%N
  then ((r1 - 55296) * 1024 + (r2 - 56320) + 65536)%N
  else RuneError.

(** [utf8.EncodeRune] *)
Definition EncodeRune (r : N) : string :=
  let r := if IsSurrogate r || (1114111 <? r)%N then RuneError else r in
  if (r <? 128)%N then str1 r
  else if (r <? 2048)%N then
    str1 (192 + r / 64) ++ str1 (128 + r mod 64)
  else if (r <? 65536)%N then
    str1 (224 + r / 4096) ++ str1 (128 + (r / 64) mod 64) ++ str1 (128 + r mod 64)
  else
    str1 (240 + r / 262144) ++ str1 (128 + (r / 4096) mod 64)
      ++ str1 (128 + (r / 64) mod 64) ++ str1 (128 + r mod 64).

(** The size of the well-formed multi-byte UTF-8 sequence at the head of [s];
    [None] where [utf8.DecodeRune] answers [(RuneError, 1)]. *)
Definition utf8Size (s : string) : option nat :=
  match s with
  | String p0 r0 =>
      let range : option (nat * N * N) :=
        if between 194 223 p0 then Some (2%nat, 128%N, 191%N)
        else if isByte 224 p0 then Some (3%nat, 160%N, 191%N)
        else if between 225 236 p0 then Some (3%nat, 128%N, 191%N)
        else if isByte 237 p0 then Some (3%nat, 128%N, 159%N)
        else if between 238 239 p0 then Some (3%nat, 128%N, 191%N)
        else if isByte 240 p0 then Some (4%nat, 144%N, 191%N)
        else if between 241 243 p0 then Some (4%nat, 128%N, 191%N)
        else if isByte 244 p0 then Some (4%nat, 128%N, 143%N)
        else None in
      match range with
      | None => None
      | Some (sz, lo, hi) =>
          match r0 with
          | String b1 r1 =>
              if negb (between lo hi b1) then None
              else if (sz <=? 2)%nat then Some 2%nat
              else match r1 with
                   | String b2 r2 =>
                       if negb (between 128 191 b2) then None
                       else if (sz <=? 3)%nat then Some 3%nat
                       else match r2 with
                            | String b3 _ => if between 128 191 b3 then Some 4%nat else None
                            | EmptyString => None
                            end
                   | EmptyString => None
                   end
          | EmptyString => None
          end
      end
  | EmptyString => None
  end.

Fixpoint take (n : nat) (s : string) : string :=
  match n, s with
  | S n', String c r => String c (take n' r)
  | _, _ => EmptyString
  end.

Fixpoint drop (n : nat) (s : string) : string :=
  match n, s with
  | S n', String _ r => drop n' r
  | _, _ => s
  end.

(** The one-letter escapes the scanner accepts. *)
Definition simpleEscape (c : ascii) : option N :=
  if isByte quote c then Some quote
  else if isByte backslash c then Some backslash
  else if isByte 47 c then Some 47%N
  else if isByte 98 c then Some 8%N
  else if isByte 102 c then Some 12%N
  else if isByte 110 c then Some 10%N
  else if isByte 114 c then Some 13%N
  else if isByte 116 c then Some 9%N
  else None.

(** The rest of a string literal after its opening quote: the unquoted bytes
    and the input after the closing quote.  [fuel] bounds the bytes read. *)
Fixpoint scanString (fuel : nat) (s : string) : option (string * string) :=
  match fuel with
  | O => None
  | S fuel' =>
      match s with
      | EmptyString => None
      | String c r =>
          if isByte quote c then Some (EmptyString, r)
          else if isByte backslash c then
            match r with
            | EmptyString => None
            | String e r1 =>
                if isByte 117 e then
                  match hex4 r1 with
                  | None => None
                  | Some (rr, r2) =>
                      let (out, r3) :=
                        if IsSurrogate rr then
                          match getu4 r2 with
                          | Some (rr1, r2') =>
                              let dec := utf16_DecodeRune rr rr1 in
                              if (dec =? RuneError)%N then (EncodeRune RuneError, r2)
                              else (EncodeRune dec, r2')
                          | None => (EncodeRune RuneError, r2)
                          end
                        else (EncodeRune rr, r2) in
                      match scanString fuel' r3 with
                      | Some (t, rest) => Some (out ++ t, rest)
                      | None => None
                      end
                  end
                else
                  match simpleEscape e with
                  | None => None
                  | Some b =>
                      match scanString fuel' r1 with
                      | Some (t, rest) => Some (String (chr b) t, rest)
                      | None => None
                      end
                  end
            end
          else if (code c <? 32)%N then None
          else if (code c <? 128)%N then
            match scanString fuel' r with
            | Some (t, rest) => Some (String c t, rest)
            | None => None
            end
          else
            match utf8Size s with
            | Some sz =>
                match scanString fuel' (drop sz s) with
                | Some (t, rest) => Some (take sz s ++ t, rest)
                | None => None
                end
            | None =>
                match scanString fuel' r with
                | Some (t, rest) => Some (EncodeRune RuneError ++ t, rest)
                | None => None
                end
            end
      end
  end.

(** [s] starts with the bytes of [lit]. *)
Definition literal (lit : string) (v : Value) (s : string) : option (Value * string) :=
  if strings.HasPrefix s lit then Some (v, drop (String.length lit) s) else None.

(** *** Values *)

Fixpoint parseValue (fuel : nat) (s : string) {struct fuel} : option (Value * string) :=
  match fuel with
  | O => None
  | S fuel' =>
      match skipSpace s with
      | EmptyString => None
      | String c r =>
          if isByte 123 c then                                   (* object *)
            match skipSpace r with
            | EmptyString => None
            | String c' r' =>
                if isByte 125 c' then Some (Object [], r')
                else match parseMembers fuel' (String c' r') with
                     | Some (ms, rest) => Some (Object ms, rest)
                     | None => None
                     end
            end
          else if isByte 91 c then                               (* array *)
            match skipSpace r with
            | EmptyString => None
            | String c' r' =>
                if isByte 93 c' then Some (Array [], r')
                else match parseElems fuel' (String c' r') with
                     | Some (vs, rest) => Some (Array vs, rest)
                     | None => None
                     end
            end
          else if isByte quote c then
            match scanString (String.length r) r with
            | Some (t, rest) => Some (Str t, rest)
            | None => None
            end
          else if isByte 45 c || isDigit c then
            match scanNumber (String c r) with
            | Some (lit, rest) => Some (Number lit, rest)
            | None => None
            end
          else if isByte 116 c then literal "true" (Bool true) (String c r)
          else if isByte 102 c then literal "false" (Bool false) (String c r)
          else if isByte 110 c then literal "null" Null (String c r)
          else None
      end
  end

with parseElems (fuel : nat) (s : string) {struct fuel} : option (list Value * string) :=
  match fuel with
  | O => None
  | S fuel' =>
      match parseValue fuel' s with
      | None => None
      | Some (v, r) =>
          match skipSpace r with
          | EmptyString => None
          | String c r' =>
              if isByte 44 c then
                match parseElems fuel' r' with
                | Some (vs, rest) => Some (v :: vs, rest)
                | None => None
                end
              else if isByte 93 c then Some ([v], r')
              else None
          end
      end
  end

with parseMembers (fuel : nat) (s : string) {struct fuel}
  : option (list (string * Value) * string) :=
  match fuel with
  | O => None
  | S fuel' =>
      match skipSpace s with
      | EmptyString => None
      | String q r =>
          if negb (isByte quote q) then None
          else
            match scanString (String.length r) r with
            | None => None
            | Some (key, r1) =>
                match skipSpace r1 with
                | EmptyString => None
                | String colon r2 =>
                    if negb (isByte 58 colon) then None
                    else
                      match parseValue fuel' r2 with
                      | None => None
                      | Some (v, r3) =>
                          match skipSpace r3 with
                          | EmptyString => None
                          | String c r4 =>
                              if isByte 44 c then
                                match parseMembers fuel' r4 with
                                | Some (ms, rest) => Some ((key, v) :: ms, rest)
                                | None => None
                                end
                              else if isByte 125 c then Some ([(key, v)], r4)
                              else None
                          end
                      end
                end
            end
      end
  end.

(** [checkValid] and the parse in one: a single value between optional white
    space, or nothing for a syntax error.  Each value, element and member
    costs at most two units of fuel per byte it starts with. *)
Definition parse (data : string) : option Value :=
  match parseValue (2 * String.length data + 2) data with
  | Some (v, rest) =>
      match skipSpace rest with
      | EmptyString => Some v
      | String _ _ => None
      end
  | None => None
  end.

(** *** Storing a value by the shape of the target

    A decoder takes the JSON value and the target's current contents, and
    gives the new contents and the error it saved, if any; decoding goes on
    after a type error, and [saveError] keeps the first one. *)

Definition saved (e1 e2 : option error) : option error :=
  match e1 with
  | Some _ => e1
  | None => e2
  end.

(** The [Value] field of an [UnmarshalTypeError] for a value that does not fit. *)
Definition kindName (v : Value) : string :=
  match v with
  | Null => "null"
  | Bool _ => "bool"
  | Number _ => "number"
  | Str _ => "string"
  | Array _ => "array"
  | Object _ => "object"
  end.

(** Go's [int] has 64 bits on the platforms uptimer is built for. *)
Definition minInt : Z := - 2 ^ 63.
Definition maxInt : Z := 2 ^ 63 - 1.

Fixpoint decimal (acc : Z) (s : string) : option Z :=
  match s with
  | EmptyString => Some acc
  | String c r => if isDigit c then decimal (acc * 10 + Z.of_N (code c - 48)) r else None
  end.

(** [strconv.ParseInt(lit, 10, 64)] on a JSON number literal: the literal
    must be an optional minus sign and digits, and the value must fit. *)
Definition ParseInt (lit : string) : option Z :=
  let (neg, ds) := match lit with
                   | String c r => if isByte 45 c then (true, r) else (false, lit)
                   | EmptyString => (false, lit)
                   end in
  match ds with
  | EmptyString => None
  | _ =>
      match decimal 0 ds with
      | None => None
      | Some n =>
          let n := if neg then - n else n in
          if (minInt <=? n) && (n <=? maxInt) then Some n else None
      end
  end.

(** Into an [int] field. *)
Definition decodeInt (v : Value) (cur : Z) : Z * option error :=
  match v with
  | Null => (cur, None)
  | Number lit =>
      match ParseInt lit with
      | Some n => (n, None)
      | None => (cur, Some (UnmarshalTypeError ("number " ++ lit) "int"))
      end
  | _ => (cur, Some (UnmarshalTypeError (kindName v) "int"))
  end.

(** Into a [string] field. *)
Definition decodeString (v : Value) (cur : string) : string * option error :=
  match v with
  | Null => (cur, None)
  | Str s => (s, None)
  | _ => (cur, Some (UnmarshalTypeError (kindName v) "string"))
  end.

(** A Go slice: [nilSlice], or a backing array (its length is the capacity)
    and a length. *)
Inductive Slice (A : Type) : Type :=
| nilSlice
| mkSlice (backing : list A) (len : nat).
Arguments nilSlice {A}.
Arguments mkSlice {A} backing len.

Definition backing {A} (s : Slice A) : list A :=
  match s with
  | nilSlice => []
  | mkSlice b _ => b
  end.

Definition len {A} (s : Slice A) : nat :=
  match s with
  | nilSlice => O
  | mkSlice _ n => n
  end.

(** The elements [s[0], ..., s[len(s)-1]]. *)
Definition elems {A} (s : Slice A) : list A := firstn (len s) (backing s).

Fixpoint setNth {A} (i : nat) (x : A) (l : list A) : list A :=
  match l, i with
  | [], _ => []
  | _ :: t, O => x :: t
  | h :: t, S i' => h :: setNth i' x t
  end.

Section DecodeSlice.

Variable A : Type.
Variable zero : A.
Variable typeName : string.
Variable decodeElem : Value -> A -> A * option error.

(** The loop of [decodeState.array] over the elements of a JSON array: the
    slice is grown to capacity [cap + cap/2] (at least 4) when index [i]
    reaches the capacity, its length is raised to [i+1], and element [i] is
    decoded in place, over whatever the slot holds. *)
Fixpoint arrayLoop (vs : list Value) (i : nat) (arr : list A) (n : nat) (err : option error)
  : list A * nat * nat * option error :=
  match vs with
  | [] => (arr, n, i, err)
  | v :: vs' =>
      let cap := List.length arr in
      let arr1 :=
        if (cap <=? i)%nat then
          let newcap := (cap + cap / 2)%nat in
          let newcap := if (newcap <? 4)%nat then 4%nat else newcap in
          (firstn n arr ++ repeat zero (newcap - n))%list
        else arr in
      let n1 := if (n <=? i)%nat then S i else n in
      let (x, e) := decodeElem v (nth i arr1 zero) in
      arrayLoop vs' (S i) (setNth i x arr1) n1 (saved err e)
  end.

(** Into a slice field. *)
Definition decodeSlice (v : Value) (cur : Slice A) : Slice A * option error :=
  match v with
  | Null => (nilSlice, None)
  | Array vs =>
      match arrayLoop vs 0 (backing cur) (len cur) None with
      | (arr, n, i, err) =>
          if (i =? 0)%nat then (mkSlice [] 0, err)
          else (mkSlice arr (if (i <? n)%nat then i else n), err)
      end
  | _ => (cur, Some (UnmarshalTypeError (kindName v) typeName))
  end.

End DecodeSlice.
Arguments arrayLoop {A}.
Arguments decodeSlice {A}.

(** *** Object keys and struct fields *)

Definition isLetter (c : ascii) : bool := between 65 90 c || between 97 122 c.

(** Clearing bit 5 ([b & caseMask]) maps an ASCII letter to upper case. *)
Definition upper (c : ascii) : N := if between 97 122 c then (code c - 32)%N else code c.

(** The fold comparison of a field name (ASCII) with a key: letters match in
    either case, and the Kelvin sign (E2 84 AA) matches [k], the long s
    (C5 BF) matches [s]. *)
Fixpoint equalFold (name key : string) {struct name} : bool :=
  match name with
  | EmptyString => match key with EmptyString => true | _ => false end
  | String sb name' =>
      match key with
      | EmptyString => false
      | String tb key' =>
          if (code tb <? 128)%N then
            (Ascii.eqb sb tb || (isLetter sb && isLetter tb && (upper sb =? upper tb)%N))
            && equalFold name' key'
          else if (isByte 115 sb || isByte 83 sb) && strings.HasPrefix key (str1 197 ++ str1 191)
          then equalFold name' (drop 2 key)
          else if (isByte 107 sb || isByte 75 sb)
                  && strings.HasPrefix key (str1 226 ++ str1 132 ++ str1 170)
          then equalFold name' (drop 3 key)
          else false
      end
  end.

(** The field an object key selects: the one whose name equals the key, else
    the first whose name matches under folding, else none (the member is
    skipped). *)
Definition findField (names : list string) (key : string) : option string :=
  match find (String.eqb key) names with
  | Some n => Some n
  | None => find (fun n => equalFold n key) names
  end.

Section DecodeStruct.

Variable T : Type.
Variable typeName : string.
Variable fieldNames : list string.
(** [setField name v cur]: decode [v] into the field of [cur] tagged [name]. *)
Variable setField : string -> Value -> T -> T * option error.

Fixpoint objectLoop (ms : list (string * Value)) (cur : T) (err : option error)
  : T * option error :=
  match ms with
  | [] => (cur, err)
  | (key, v) :: ms' =>
      match findField fieldNames key with
      | Some name =>
          let (cur', e) := setField name v cur in
          objectLoop ms' cur' (saved err e)
      | None => objectLoop ms' cur err
      end
  end.

(** Into a struct. *)
Definition decodeStruct (v : Value) (cur : T) : T * option error :=
  match v with
  | Null => (cur, None)
  | Object ms => objectLoop ms cur None
  | _ => (cur, Some (UnmarshalTypeError (kindName v) typeName))
  end.

(** Into a pointer to a struct: [null] stores nil; any other value first
    makes the pointer point at a struct (a new zero one if it was nil). *)
Definition decodePtr (zero : T) (v : Value) (cur : option T) : option T * option error :=
  match v with
  | Null => (None, None)
  | _ =>
      let target := match cur with Some t => t | None => zero end in
      let (t, e) := decodeStruct v target in
      (Some t, e)
  end.

End DecodeStruct.
Arguments objectLoop {T}.
Arguments decodeStruct {T}.
Arguments decodePtr {T}.

End json.

(** ** Package config (config/config.go) *)

Module config.

(** config.go:14-17 *)
Record Command : Type := mkCommand {
  Command_ : string;                   (* Command, json: command *)
  CommandArgs : json.Slice string      (* json: command_args *)
}.

(** config.go:19-27 *)
Record Cf : Type := mkCf {
  API : string;                        (* json: api *)
  AppDomain : string;                  (* json: app_domain *)
  AdminUser : string;                  (* json: admin_user *)
  AdminPassword : string;              (* json: admin_password *)
  TCPDomain : string;                  (* json: tcp_domain *)
  AvailablePort : Z                    (* json: available_port *)
}.

(** config.go:29-34: four fields of Go type [int]. *)
Record AllowedFailures : Type := mkAllowedFailures {
  AppPushability : Z;                  (* json: app_pushability *)
  HttpAvailability : Z;                (* json: http_availability *)
  RecentLogs : Z;                      (* json: recent_logs *)
  StreamingLogs : Z                    (* json: streaming_logs *)
}.

(** config.go:8-12 *)
Record Config : Type := mkConfig {
  While : json.Slice (option Command); (* []*Command, json: while *)
  CF : option Cf;                      (* *Cf, json: cf *)
  AllowedFailures_ : AllowedFailures   (* AllowedFailures, json: allowed_failures *)
}.

(** The zero values: [Command{}], [Cf{}], [AllowedFailures{}], [Config{}]. *)
Definition zeroCommand : Command := mkCommand EmptyString json.nilSlice.
Definition zeroCf : Cf := mkCf EmptyString EmptyString EmptyString EmptyString EmptyString 0.
Definition zeroAllowedFailures : AllowedFailures := mkAllowedFailures 0 0 0 0.
Definition zeroConfig : Config := mkConfig json.nilSlice None zeroAllowedFailures.

(** What [json.Unmarshal] does at each struct type, read off the field tags. *)

Definition setCommandField (name : string) (v : json.Value) (c : Command)
  : Command * option error :=
  if String.eqb name "command" then
    let (x, e) := json.decodeString v (Command_ c) in (mkCommand x (CommandArgs c), e)
  else if String.eqb name "command_args" then
    let (x, e) := json.decodeSlice EmptyString "[]string" json.decodeString v (CommandArgs c) in
    (mkCommand (Command_ c) x, e)
  else (c, None).

Definition decodeCommandPtr : json.Value -> option Command -> option Command * option error :=
  json.decodePtr "config.Command" ["command"; "command_args"] setCommandField zeroCommand.

Definition setCfField (name : string) (v : json.Value) (c : Cf) : Cf * option error :=
  if String.eqb name "api" then
    let (x, e) := json.decodeString v (API c) in
    (mkCf x (AppDomain c) (AdminUser c) (AdminPassword c) (TCPDomain c) (AvailablePort c), e)
  else if String.eqb name "app_domain" then
    let (x, e) := json.decodeString v (AppDomain c) in
    (mkCf (API c) x (AdminUser c) (AdminPassword c) (TCPDomain c) (AvailablePort c), e)
  else if String.eqb name "admin_user" then
    let (x, e) := json.decodeString v (AdminUser c) in
    (mkCf (API c) (AppDomain c) x (AdminPassword c) (TCPDomain c) (AvailablePort c), e)
  else if String.eqb name "admin_password" then
    let (x, e) := json.decodeString v (AdminPassword c) in
    (mkCf (API c) (AppDomain c) (AdminUser c) x (TCPDomain c) (AvailablePort c), e)
  else if String.eqb name "tcp_domain" then
    let (x, e) := json.decodeString v (TCPDomain c) in
    (mkCf (API c) (AppDomain c) (AdminUser c) (AdminPassword c) x (AvailablePort c), e)
  else if String.eqb name "available_port" then
    let (x, e) := json.decodeInt v (AvailablePort c) in
    (mkCf (API c) (AppDomain c) (AdminUser c) (AdminPassword c) (TCPDomain c) x, e)
  else (c, None).

Definition cfFields : list string :=
  ["api"; "app_domain"; "admin_user"; "admin_password"; "tcp_domain"; "available_port"].

Definition setAllowedFailuresField (name : string) (v : json.Value) (a : AllowedFailures)
  : AllowedFailures * option error :=
  if String.eqb name "app_pushability" then
    let (x, e) := json.decodeInt v (AppPushability a) in
    (mkAllowedFailures x (HttpAvailability a) (RecentLogs a) (StreamingLogs a), e)
  else if String.eqb name "http_availability" then
    let (x, e) := json.decodeInt v (HttpAvailability a) in
    (mkAllowedFailures (AppPushability a) x (RecentLogs a) (StreamingLogs a), e)
  else if String.eqb name "recent_logs" then
    let (x, e) := json.decodeInt v (RecentLogs a) in
    (mkAllowedFailures (AppPushability a) (HttpAvailability a) x (StreamingLogs a), e)
  else if String.eqb name "streaming_logs" then
    let (x, e) := json.decodeInt v (StreamingLogs a) in
    (mkAllowedFailures (AppPushability a) (HttpAvailability a) (RecentLogs a) x, e)
  else (a, None).

Definition allowedFailuresFields : list string :=
  ["app_pushability"; "http_availability"; "recent_logs"; "streaming_logs"].

Definition decodeAllowedFailures
  : json.Value -> AllowedFailures -> AllowedFailures * option error :=
  json.decodeStruct "config.AllowedFailures" allowedFailuresFields setAllowedFailuresField.

Definition setConfigField (name : string) (v : json.Value) (c : Config)
  : Config * option error :=
  if String.eqb name "while" then
    let (x, e) := json.decodeSlice None "[]*config.Command" decodeCommandPtr v (While c) in
    (mkConfig x (CF c) (AllowedFailures_ c), e)
  else if String.eqb name "cf" then
    let (x, e) := json.decodePtr "config.Cf" cfFields setCfField zeroCf v (CF c) in
    (mkConfig (While c) x (AllowedFailures_ c), e)
  else if String.eqb name "allowed_failures" then
    let (x, e) := decodeAllowedFailures v (AllowedFailures_ c) in
    (mkConfig (While c) (CF c) x, e)
  else (c, None).

Definition configFields : list string := ["while"; "cf"; "allowed_failures"].

Definition decodeConfig : json.Value -> Config -> Config * option error :=
  json.decodeStruct "config.Config" configFields setConfigField.

(** [json.Unmarshal(data, newConfig)] with [newConfig] of type [*Config]. *)
Definition Unmarshal (data : string) (newConfig : Config) : Config * option error :=
  match json.parse data with
  | None => (newConfig, Some SyntaxError)
  | Some v => decodeConfig v newConfig
  end.

(** config.go:36-49.  [ReadFile] is [ioutil.ReadFile]: the file system. *)
Definition Load (ReadFile : string -> string + error) (filename : string) : Config + error :=
  match ReadFile filename with
  | inr err => inr err
  | inl data =>
      let newConfig := zeroConfig in
      match Unmarshal data newConfig with
      | (_, Some err) => inr err
      | (newConfig, None) => inl newConfig
      end
  end.

End config.

(** Double quotes written as apostrophes, to spell JSON texts in examples. *)
Fixpoint dq (s : string) : string :=
  match s with
  | EmptyString => EmptyString
  | String c r => String (if Ascii.eqb c "'"%char then json.chr json.quote else c) (dq r)
  end.

(** ** Collaborating packages that the driver only constructs and calls

    cfCmdGenerator, cfWorkflow, cmdStartWaiter, appLogValidator, measurement
    and orchestrator are other packages of the repository.  A value built by
    one of their constructors is the record of what the constructor was
    given; the command lists that a workflow produces are an interface. *)

(** [cfCmdGenerator.New(cfHome)] *)
Record CfCmdGenerator : Type := cfCmdGenerator_New { cfHome : string }.

(** [cfWorkflow.New(cfc, org, space, quota, appName, appPath, appCommand)] *)
Record CfWorkflow : Type := cfWorkflow_New {
  wf_cf : option config.Cf;
  wf_org : string;
  wf_space : string;
  wf_quota : string;
  wf_appName : string;
  wf_appPath : string;
  wf_appCommand : string
}.

(** The methods of [cfWorkflow.CfWorkflow]; [CmdStartWaiter] is the command
    descriptor type of package cmdStartWaiter. *)
Class CfWorkflowMethods : Type := {
  CmdStartWaiter : Type;
  Setup : CfWorkflow -> CfCmdGenerator -> list CmdStartWaiter;
  Push : CfWorkflow -> CfCmdGenerator -> list CmdStartWaiter;
  Delete : CfWorkflow -> CfCmdGenerator -> list CmdStartWaiter;
  MapRoute : CfWorkflow -> CfCmdGenerator -> list CmdStartWaiter;
  TearDown : CfWorkflow -> CfCmdGenerator -> list CmdStartWaiter;
  RecentLogs : CfWorkflow -> CfCmdGenerator -> list CmdStartWaiter;
  StreamLogs : CfWorkflow -> context.Context -> CfCmdGenerator -> list CmdStartWaiter;
  AppUrl : CfWorkflow -> string
}.

(** An [io.Writer] handed to [cmdRunner.New]: a standard stream or a
    [*bytes.Buffer], known by the order of its creation. *)
Inductive Writer : Type :=
| os_Stdout
| os_Stderr
| Buffer (id : nat).

(** A [cmdRunner.CmdRunner] is known by the order of its creation. *)
Definition CmdRunner := nat.

(** [log.New(os.Stdout, prefix, flags)]; [clock.New()]; [appLogValidator.New()] *)
Inductive Logger : Type := log_New (out : Writer) (prefix : string) (flags : list string).
Inductive Clock : Type := clock_New.
Inductive AppLogValidator : Type := appLogValidator_New.

(** [measurement.NewResultSet()]: no outcome recorded yet. *)
Definition ResultSet := list bool.
Definition NewResultSet : ResultSet := [].

(** [substr] occurs in [s]: [s] is some text, then [substr], then some text. *)
Definition occurs_in (substr s : string) : Prop :=
  exists pre post : string, s = pre ++ substr ++ post.

(** main.go:278-281 *)
Definition authFailedMessage : string :=
  "Authentication has expired.  Please log back in to re-authenticate.".

Definition authFailedRetryFunc (stdOut stdErr : string) : bool :=
  strings.Contains stdOut authFailedMessage || strings.Contains stdErr authFailedMessage.

Section Driver.

Context {W : CfWorkflowMethods}.

(** The constructors of package measurement. *)
Inductive Measurement : Type :=
| NewRecentLogs (recentLogsCommandGeneratorFunc : unit -> list CmdStartWaiter)
    (runner : CmdRunner) (runnerOutBuf runnerErrBuf : nat) (v : AppLogValidator)
| NewStreamingLogs
    (streamingLogsCommandGeneratorFunc :
       context.Runtime ->
       (context.Context * context.CancelFunc * list CmdStartWaiter) * context.Runtime)
    (runner : CmdRunner) (runnerOutBuf runnerErrBuf : nat) (v : AppLogValidator)
| NewAppPushability (appPushCommandGeneratorFunc : unit -> list CmdStartWaiter)
    (runner : CmdRunner) (runnerOutBuf runnerErrBuf : nat)
| NewHTTPAvailability (url : string) (client : http.Client)
| NewPeriodic (logger : Logger) (clock : Clock) (freq : time.Duration)
    (baseMeasurement : Measurement) (resultSet : ResultSet) (allowedFailures : Z)
    (shouldRetryFunc : string -> string -> bool).

(** [orchestrator.New(while, logger, workflow, runner, measurements)] *)
Record Orchestrator : Type := orchestrator_New {
  orc_while : json.Slice (option config.Command);
  orc_logger : Logger;
  orc_workflow : CfWorkflow;
  orc_runner : CmdRunner;
  orc_measurements : list Measurement
}.

(** ** The process: what [main] does to the world, in order *)

Inductive arg : Type :=
| str (s : string)
| err (e : error).

Inductive Event : Type :=
| EPrintf (format : string) (a : list arg)              (* fmt.Printf, to standard output *)
| ELogPrintln (a : list arg)                            (* logger.Println *)
| ELogPrintf (format : string) (a : list arg)           (* logger.Printf *)
| EReadFile (filename : string)                         (* ioutil.ReadFile *)
| EBuild (dir : string)                                 (* buildCmd.Run() of go build in dir *)
| ETempDir                                              (* ioutil.TempDir *)
| ERunInSequence (runner : CmdRunner) (cmds : list CmdStartWaiter)
| EOrcSetup (runner : CmdRunner) (g : CfCmdGenerator)
| EOrcRun (performMeasurements : bool)
| EOrcTearDown (runner : CmdRunner) (g : CfCmdGenerator)
| EExit (code : Z).                                     (* os.Exit *)

Record Process : Type := mkProcess {
  trace : list Event;                  (* oldest first *)
  buffers : list string;               (* contents of the bytes.Buffers created *)
  runners : list (Writer * Writer);    (* out and err writer of the runners created *)
  tempDirs : nat;                      (* calls of ioutil.TempDir so far *)
  uuids : nat                          (* calls of uuid.NewV4 so far *)
}.

Definition start : Process := mkProcess [] [] [] 0 0.

(** What a run of commands did: text written to the runner's two writers,
    and the error returned. *)
Record RunOutcome : Type := mkRunOutcome {
  stdoutText : string;
  stderrText : string;
  failure : option error
}.

(** The invocation and the world's answers to the calls [main] makes. *)
Record Env : Type := mkEnv {
  flag_configFile : string;                  (* *configPath after flag.Parse() *)
  flag_v : bool;                             (* *showVersion after flag.Parse() *)
  version_Version : string;
  GOPATH : string;                           (* os.Getenv of GOPATH *)
  path_Join : string -> string -> string;
  ioutil_ReadFile : string -> string + error;
  buildCmd_Run : string -> option error;     (* by appName *)
  ioutil_TempDir : nat -> string + error;    (* by call number *)
  uuid_NewV4 : nat -> string;                (* by call number *)
  pushSetup : RunOutcome;                    (* main.go:85 *)
  sinkSetup : RunOutcome;                    (* main.go:95 *)
  orcSetup : RunOutcome;                     (* orc.Setup, main.go:133 *)
  orcRun : bool -> Z * option error;         (* orc.Run, main.go:140 *)
  orcTearDown : RunOutcome;                  (* orc.TearDown, main.go:358 *)
  pushTearDown : RunOutcome                  (* main.go:362 *)
}.

(** A step of the process either returns or ends it with [os.Exit]. *)
Inductive Outcome (A : Type) : Type :=
| Returned (a : A)
| Exited (code : Z).
Arguments Returned {A} a.
Arguments Exited {A} code.

Definition M (A : Type) : Type := Process -> Outcome A * Process.

Definition ret {A} (a : A) : M A := fun p => (Returned a, p).

Definition bind {A B} (m : M A) (k : A -> M B) : M B :=
  fun p => match m p with
           | (Returned a, p') => k a p'
           | (Exited code, p') => (Exited code, p')
           end.

Notation "x <- m ;; k" := (bind m (fun x => k))
  (at level 61, m at next level, right associativity).
Notation "' pat <- m ;; k" := (bind m (fun x => match x with pat => k end))
  (at level 61, pat pattern, m at next level, right associativity).
Notation "m ;; k" := (bind m (fun _ => k))
  (at level 61, right associativity).

Definition emit (e : Event) : M unit :=
  fun p => (Returned tt,
            mkProcess (trace p ++ [e]) (buffers p) (runners p) (tempDirs p) (uuids p)).

Definition os_Exit {A} (code : Z) : M A :=
  fun p => (Exited code,
            mkProcess (trace p ++ [EExit code]) (buffers p) (runners p) (tempDirs p) (uuids p)).

Definition fmt_Printf (format : string) (a : list arg) : M unit := emit (EPrintf format a).
Definition Println (a : list arg) : M unit := emit (ELogPrintln a).
Definition Printf (format : string) (a : list arg) : M unit := emit (ELogPrintf format a).

Definition nl : string := String (ascii_of_nat 10) EmptyString.

(** [bytes.NewBuffer([]byte{})] *)
Definition bytes_NewBuffer : M nat :=
  fun p => (Returned (List.length (buffers p)),
            mkProcess (trace p) (buffers p ++ [EmptyString]) (runners p) (tempDirs p) (uuids p)).

(** [buf.String()] and [buf.Reset()] *)
Definition Buffer_String (b : nat) : M string :=
  fun p => (Returned (nth b (buffers p) EmptyString), p).

Definition Buffer_Reset (b : nat) : M unit :=
  fun p => (Returned tt,
            mkProcess (trace p) (json.setNth b EmptyString (buffers p)) (runners p)
              (tempDirs p) (uuids p)).

(** [cmdRunner.New(outWriter, errWriter, io.Copy)] *)
Definition cmdRunner_New (outWriter errWriter : Writer) : M CmdRunner :=
  fun p => (Returned (List.length (runners p)),
            mkProcess (trace p) (buffers p) (runners p ++ [(outWriter, errWriter)])
              (tempDirs p) (uuids p)).

(** Text arriving at a writer: a buffer grows; the standard streams are not kept. *)
Definition write (w : Writer) (text : string) : M unit :=
  fun p => (Returned tt,
            match w with
            | Buffer b =>
                mkProcess (trace p)
                  (json.setNth b (nth b (buffers p) EmptyString ++ text) (buffers p))
                  (runners p) (tempDirs p) (uuids p)
            | _ => p
            end).

(** Commands run through a runner write to its two writers. *)
Definition runnerWrites (r : CmdRunner) (o : RunOutcome) : M unit :=
  fun p => match nth_error (runners p) r with
           | Some (out, er) => (write out (stdoutText o) ;; write er (stderrText o)) p
           | None => (Returned tt, p)
           end.

(** [runner.RunInSequence(cmds...)], with what the run did. *)
Definition RunInSequence (r : CmdRunner) (cmds : list CmdStartWaiter) (o : RunOutcome)
  : M (option error) :=
  emit (ERunInSequence r cmds) ;; runnerWrites r o ;; ret (failure o).

(** [orc.Setup(runner, g)], [orc.Run(performMeasurements)], [orc.TearDown(runner, g)] *)
Definition orc_Setup (orc : Orchestrator) (r : CmdRunner) (g : CfCmdGenerator) (o : RunOutcome)
  : M (option error) :=
  emit (EOrcSetup r g) ;; runnerWrites r o ;; ret (failure o).

Definition orc_Run (env : Env) (orc : Orchestrator) (performMeasurements : bool)
  : M (Z * option error) :=
  emit (EOrcRun performMeasurements) ;; ret (orcRun env performMeasurements).

Definition orc_TearDown (orc : Orchestrator) (r : CmdRunner) (g : CfCmdGenerator)
  (o : RunOutcome) : M (option error) :=
  emit (EOrcTearDown r g) ;; runnerWrites r o ;; ret (failure o).

(** ** Package main (main.go) *)

(** main.go:161-168 *)
Definition loadConfig (env : Env) (configPath : string) : M (config.Config + error) :=
  emit (EReadFile configPath) ;;
  match config.Load (ioutil_ReadFile env) configPath with
  | inr e => ret (inr e)
  | inl cfg => ret (inl cfg)
  end.

Definition TempDir (env : Env) : M (string + error) :=
  fun p => (Returned (ioutil_TempDir env (tempDirs p)),
            mkProcess (trace p ++ [ETempDir]) (buffers p) (runners p) (S (tempDirs p)) (uuids p)).

(** main.go:170-193 *)
Definition createTmpDirs (env : Env)
  : M (string * string * string * string * string * option error) :=
  let failed e := ret (EmptyString, EmptyString, EmptyString, EmptyString, EmptyString, Some e) in
  r <- TempDir env ;;
  match r with
  | inr e => failed e
  | inl orcTmpDir =>
  r <- TempDir env ;;
  match r with
  | inr e => failed e
  | inl recentLogsTmpDir =>
  r <- TempDir env ;;
  match r with
  | inr e => failed e
  | inl streamingLogsTmpDir =>
  r <- TempDir env ;;
  match r with
  | inr e => failed e
  | inl pushTmpDir =>
  r <- TempDir env ;;
  match r with
  | inr e => failed e
  | inl sinkTmpDir =>
      ret (orcTmpDir, recentLogsTmpDir, streamingLogsTmpDir, pushTmpDir, sinkTmpDir, None)
  end end end end end.

(** main.go:195-211 *)
Definition compileIncludedApp (env : Env) (appName : string) : M (string * option error) :=
  let appPath := path_Join env (GOPATH env)
                   ("/src/github.com/cloudfoundry/uptimer/" ++ appName) in
  emit (EBuild appPath) ;;
  let e := buildCmd_Run env appName in
  ret (appPath, e).

Definition NewV4 (env : Env) : M string :=
  fun p => (Returned (uuid_NewV4 env (uuids p)),
            mkProcess (trace p) (buffers p) (runners p) (tempDirs p) (S (uuids p))).

(** main.go:213-228 *)
Definition createWorkflow (env : Env) (cfc : option config.Cf) (appPath appCommand : string)
  : M (CfWorkflow * string * string) :=
  u <- NewV4 env ;;
  let org := "uptimer-org-" ++ u in
  u <- NewV4 env ;;
  let app := "uptimer-app-" ++ u in
  u1 <- NewV4 env ;;
  u2 <- NewV4 env ;;
  ret (cfWorkflow_New cfc org ("uptimer-space-" ++ u1) ("uptimer-quota-" ++ u2)
         app appPath appCommand,
       org, app).

(** main.go:324-329 *)
Definition createBufferedRunner : M (CmdRunner * nat * nat) :=
  outBuf <- bytes_NewBuffer ;;
  errBuf <- bytes_NewBuffer ;;
  r <- cmdRunner_New (Buffer outBuf) (Buffer errBuf) ;;
  ret (r, outBuf, errBuf).

(** The format of main.go:338, with its line feeds. *)
Definition failureFormat : string :=
  "Failed %s: %v" ++ nl ++ "stdout:" ++ nl ++ "%s" ++ nl ++ "stderr:" ++ nl ++ "%s" ++ nl.

(** main.go:331-346 *)
Definition logBufferedRunnerFailure (logger : Logger) (whatFailed : string) (e : error)
  (outBuf errBuf : nat) : M unit :=
  o <- Buffer_String outBuf ;;
  s <- Buffer_String errBuf ;;
  Printf failureFormat [str whatFailed; err e; str o; str s] ;;
  Buffer_Reset outBuf ;;
  Buffer_Reset errBuf.

(** The function literals of [createMeasurements] (main.go:238-240, 249-252,
    261-263), closed over the workflow and the generator they mention. *)
Definition recentLogsCommands (orcWorkflow : CfWorkflow) (recentLogsCmdGenerator : CfCmdGenerator)
  : unit -> list CmdStartWaiter :=
  fun _ => RecentLogs orcWorkflow recentLogsCmdGenerator.

Definition streamingLogsCommands (orcWorkflow : CfWorkflow)
  (streamingLogsCmdGenerator : CfCmdGenerator)
  : context.Runtime ->
    (context.Context * context.CancelFunc * list CmdStartWaiter) * context.Runtime :=
  fun rt =>
    let '((ctx, cancelFunc), rt') :=
      context.WithTimeout context.Background (15 * time.Second) rt in
    ((ctx, cancelFunc, StreamLogs orcWorkflow ctx streamingLogsCmdGenerator), rt').

Definition appPushCommands (pushWorkflow : CfWorkflow) (pushCmdGenerator : CfCmdGenerator)
  : unit -> list CmdStartWaiter :=
  fun _ => (Push pushWorkflow pushCmdGenerator ++ Delete pushWorkflow pushCmdGenerator)%list.

(** main.go:230-322 *)
Definition createMeasurements (logger : Logger) (orcWorkflow pushWorkflow : CfWorkflow)
  (recentLogsCmdGenerator streamingLogsCmdGenerator pushCmdGenerator : CfCmdGenerator)
  (allowedFailures : config.AllowedFailures) : M (list Measurement) :=
  '(recentLogsBufferRunner, recentLogsRunnerOutBuf, recentLogsRunnerErrBuf)
     <- createBufferedRunner ;;
  let recentLogsMeasurement :=
    NewRecentLogs (recentLogsCommands orcWorkflow recentLogsCmdGenerator)
      recentLogsBufferRunner recentLogsRunnerOutBuf recentLogsRunnerErrBuf
      appLogValidator_New in
  '(streamingLogsBufferRunner, streamingLogsRunnerOutBuf, streamingLogsRunnerErrBuf)
     <- createBufferedRunner ;;
  let streamingLogsMeasurement :=
    NewStreamingLogs (streamingLogsCommands orcWorkflow streamingLogsCmdGenerator)
      streamingLogsBufferRunner streamingLogsRunnerOutBuf streamingLogsRunnerErrBuf
      appLogValidator_New in
  '(pushRunner, pushRunnerOutBuf, pushRunnerErrBuf) <- createBufferedRunner ;;
  let appPushabilityMeasurement :=
    NewAppPushability (appPushCommands pushWorkflow pushCmdGenerator)
      pushRunner pushRunnerOutBuf pushRunnerErrBuf in
  let httpAvailabilityMeasurement :=
    NewHTTPAvailability (AppUrl orcWorkflow)
      (http.Client_lit (http.Transport_lit (tls.mkConfig true))) in
  let clock := clock_New in
  ret [ NewPeriodic logger clock time.Second httpAvailabilityMeasurement NewResultSet
          (config.HttpAvailability allowedFailures) (fun _ _ => false);
        NewPeriodic logger clock time.Minute appPushabilityMeasurement NewResultSet
          (config.AppPushability allowedFailures) authFailedRetryFunc;
        NewPeriodic logger clock (10 * time.Second) recentLogsMeasurement NewResultSet
          (config.RecentLogs allowedFailures) authFailedRetryFunc;
        NewPeriodic logger clock (30 * time.Second) streamingLogsMeasurement NewResultSet
          (config.StreamingLogs allowedFailures) authFailedRetryFunc ].

(** main.go:348-365 *)
Definition tearDown (env : Env) (orc : Orchestrator) (orcCmdGenerator : CfCmdGenerator)
  (logger : Logger) (pushWorkflow : CfWorkflow) (pushCmdGenerator : CfCmdGenerator)
  (runner : CmdRunner) (runnerOutBuf runnerErrBuf : nat) : M unit :=
  e <- orc_TearDown orc runner orcCmdGenerator (orcTearDown env) ;;
  match e with
  | Some e => logBufferedRunnerFailure logger "main teardown" e runnerOutBuf runnerErrBuf
  | None => ret tt
  end ;;
  e <- RunInSequence runner (TearDown pushWorkflow pushCmdGenerator) (pushTearDown env) ;;
  match e with
  | Some e => logBufferedRunnerFailure logger "push workflow teardown" e runnerOutBuf runnerErrBuf
  | None => ret tt
  end.

Definition uptimerLogger : Logger :=
  log_New os_Stdout (nl ++ "[UPTIMER] ") ["log.Ldate"; "log.Ltime"; "log.LUTC"].

(** What [main] holds when setup is over (main.go:57-138). *)
Record Prepared : Type := mkPrepared {
  performMeasurements : bool;
  orc : Orchestrator;
  orcCmdGenerator : CfCmdGenerator;
  pushWorkflow : CfWorkflow;
  pushCmdGenerator : CfCmdGenerator;
  bufferedRunner : CmdRunner;
  runnerOutBuf : nat;
  runnerErrBuf : nat
}.

(** main.go:57-138: builds, temporary directories, workflows, measurements,
    orchestrator and the three setups; [performMeasurements] is the local
    variable of that name. *)
Definition prepare (env : Env) (logger : Logger) (cfg : config.Config) : M Prepared :=
  let performMeasurements := true in
  Println [str "Building included app..."] ;;
  '(appPath, e) <- compileIncludedApp env "app" ;;
  performMeasurements <-
    match e with
    | Some e => Println [str "Failed to build included app: "; err e] ;; ret false
    | None => ret performMeasurements
    end ;;
  Println [str "Finished building included app"] ;;
  Println [str "Building included syslog sink app..."] ;;
  '(sinkAppPath, e) <- compileIncludedApp env "syslogSink" ;;
  match e with
  | Some e => Println [str "Failed to build included syslog sink app: "; err e]
  | None => ret tt
  end ;;
  Println [str "Finished building included syslog sink app"] ;;
  '(orcTmpDir, recentLogsTmpDir, streamingLogsTmpDir, pushTmpDir, sinkTmpDir, e)
     <- createTmpDirs env ;;
  performMeasurements <-
    match e with
    | Some e => Println [str "Failed to create temp dir:"; err e] ;; ret false
    | None => ret performMeasurements
    end ;;
  '(bufferedRunner, runnerOutBuf, runnerErrBuf) <- createBufferedRunner ;;
  let pushCmdGenerator := cfCmdGenerator_New pushTmpDir in
  '(pushWorkflow, pushOrg, _) <- createWorkflow env (config.CF cfg) appPath "./app" ;;
  Printf "Setting up push workflow with org %s ..." [str pushOrg] ;;
  e <- RunInSequence bufferedRunner (Setup pushWorkflow pushCmdGenerator) (pushSetup env) ;;
  performMeasurements <-
    match e with
    | Some e =>
        logBufferedRunnerFailure logger "push workflow setup" e runnerOutBuf runnerErrBuf ;;
        ret false
    | None => Println [str "Finished setting up push workflow"] ;; ret performMeasurements
    end ;;
  let sinkCmdGenerator := cfCmdGenerator_New sinkTmpDir in
  '(sinkWorkflow, sinkOrg, _) <- createWorkflow env (config.CF cfg) sinkAppPath "./syslogSink" ;;
  Printf "Setting up sink workflow with org %s ..." [str sinkOrg] ;;
  e <- RunInSequence bufferedRunner
         ((Setup sinkWorkflow sinkCmdGenerator ++ Push sinkWorkflow sinkCmdGenerator)
            ++ MapRoute sinkWorkflow sinkCmdGenerator)%list
         (sinkSetup env) ;;
  performMeasurements <-
    match e with
    | Some e =>
        logBufferedRunnerFailure logger "sink workflow setup" e runnerOutBuf runnerErrBuf ;;
        ret false
    | None => Println [str "Finished setting up sink workflow"] ;; ret performMeasurements
    end ;;
  let orcCmdGenerator := cfCmdGenerator_New orcTmpDir in
  '(orcWorkflow, orcOrg, _) <- createWorkflow env (config.CF cfg) appPath "./app" ;;
  measurements <-
    createMeasurements logger orcWorkflow pushWorkflow
      (cfCmdGenerator_New recentLogsTmpDir) (cfCmdGenerator_New streamingLogsTmpDir)
      pushCmdGenerator (config.AllowedFailures_ cfg) ;;
  r <- cmdRunner_New os_Stdout os_Stderr ;;
  let orc := orchestrator_New (config.While cfg) logger orcWorkflow r measurements in
  Printf "Setting up main workflow with org %s ..." [str orcOrg] ;;
  e <- orc_Setup orc bufferedRunner orcCmdGenerator (orcSetup env) ;;
  performMeasurements <-
    match e with
    | Some e =>
        logBufferedRunnerFailure logger "main workflow setup" e runnerOutBuf runnerErrBuf ;;
        ret false
    | None => Println [str "Finished setting up main workflow"] ;; ret performMeasurements
    end ;;
  ret (mkPrepared performMeasurements orc orcCmdGenerator pushWorkflow pushCmdGenerator
         bufferedRunner runnerOutBuf runnerErrBuf).

(** main.go:140-158: the run, the teardown and the exit. *)
Definition runAndTearDown (env : Env) (logger : Logger) (s : Prepared) : M unit :=
  '(exitCode, e) <- orc_Run env (orc s) (performMeasurements s) ;;
  match e with
  | Some e => Println [str "Failed run:"; err e]
  | None => ret tt
  end ;;
  Println [str "Tearing down..."] ;;
  tearDown env (orc s) (orcCmdGenerator s) logger (pushWorkflow s) (pushCmdGenerator s)
    (bufferedRunner s) (runnerOutBuf s) (runnerErrBuf s) ;;
  Println [str "Finished tearing down"] ;;
  os_Exit exitCode.

(** main.go:33-159 *)
Definition main (env : Env) : M unit :=
  let logger := uptimerLogger in
  let configPath := flag_configFile env in
  let showVersion := flag_v env in
  (if showVersion then
     fmt_Printf ("version: %s" ++ nl) [str (version_Version env)] ;; os_Exit 0
   else ret tt) ;;
  (if String.eqb configPath EmptyString then
     Println [str "Failed to load config: "; err (errorString "'-configFile' flag required")] ;;
     os_Exit 1
   else ret tt) ;;
  r <- loadConfig env configPath ;;
  match r with
  | inr e => Println [str "Failed to load config: "; err e] ;; os_Exit 1
  | inl cfg =>
      s <- prepare env logger cfg ;;
      runAndTearDown env logger s
  end.

(** The exit code and the final state of a run of the program. *)
Definition run (env : Env) : Outcome unit * Process := main env start.

End Driver.

Arguments Returned {A} a.
Arguments Exited {A} code.

(** ** Reading the constructed measurements *)

Section Reading.

Context {W : CfWorkflowMethods}.

(** The probe a periodic measurement drives. *)
Definition baseOf (m : Measurement) : Measurement :=
  match m with
  | NewPeriodic _ _ _ b _ _ _ => b
  | _ => m
  end.

(** The retry predicate a periodic measurement was given. *)
Definition shouldRetryOf (m : Measurement) : option (string -> string -> bool) :=
  match m with
  | NewPeriodic _ _ _ _ _ _ f => Some f
  | _ => None
  end.

(** The four kinds of probe. *)
Inductive Kind : Type := HTTPAvailability | AppPushability | RecentLogs_ | StreamingLogs_.

Definition kindOf (m : Measurement) : option Kind :=
  match baseOf m with
  | NewHTTPAvailability _ _ => Some HTTPAvailability
  | NewAppPushability _ _ _ _ => Some AppPushability
  | NewRecentLogs _ _ _ _ _ => Some RecentLogs_
  | NewStreamingLogs _ _ _ _ _ => Some StreamingLogs_
  | NewPeriodic _ _ _ _ _ _ _ => None
  end.


(** The command runner a probe was constructed with: the second argument of
    the constructors of package measurement for the three command-running
    probes (main.go:241, 253, 264). *)
Definition runnerOf (m : Measurement) : option CmdRunner :=
  match baseOf m with
  | NewRecentLogs _ r _ _ _ => Some r
  | NewStreamingLogs _ r _ _ _ => Some r
  | NewAppPushability _ r _ _ => Some r
  | _ => None
  end.


(** The command supplier of a StreamingLogs probe. *)
Definition streamingLogsSupplierOf (m : Measurement)
  : option (context.Runtime ->
            (context.Context * context.CancelFunc * list CmdStartWaiter) * context.Runtime) :=
  match baseOf m with
  | NewStreamingLogs f _ _ _ _ => Some f
  | _ => None
  end.

(** The measurements [createMeasurements] returns from state [p]; it has no
    exit, so the empty list stands for no run at all. *)
Definition measurementsFrom (logger : Logger) (orcWorkflow pushWorkflow : CfWorkflow)
  (recentLogsCmdGenerator streamingLogsCmdGenerator pushCmdGenerator : CfCmdGenerator)
  (allowedFailures : config.AllowedFailures) (p : Process) : list Measurement :=
  match createMeasurements logger orcWorkflow pushWorkflow recentLogsCmdGenerator
          streamingLogsCmdGenerator pushCmdGenerator allowedFailures p with
  | (Returned ms, _) => ms
  | (Exited _, _) => []
  end.

(** Events of the setup phase: anything but the run, the teardown and the exit. *)
Definition setupEvent (e : Event) : Prop :=
  match e with
  | EOrcRun _ | EOrcTearDown _ _ | EExit _ => False
  | _ => True
  end.

(** The log lines of a step that may fail: none if it succeeded, else the one
    line of [logBufferedRunnerFailure], with the buffered output it shows. *)
Definition logsFailure (whatFailed : string) (e : option error) (evs : list Event) : Prop :=
  match e with
  | None => evs = []
  | Some e =>
      exists out er : string,
        evs = [ELogPrintf failureFormat [str whatFailed; err e; str out; str er]]
  end.

(** The log line of a failed run. *)
Definition logsFailedRun (e : option error) : list Event :=
  match e with
  | None => []
  | Some e => [ELogPrintln [str "Failed run:"; err e]]
  end.

End Reading.

(** ** Package measurement: the periodic scheduler's accounting *)

(** Modelled from the spec: the Result Set and the tick of the Periodic
    Scheduler are in package measurement, whose source is not at hand.
    Spec 4.3: [record(success)] appends one outcome, [failureCount()] counts
    the failures.  Spec 4.4: on a tick the probe is invoked; on success
    [record(true)]; on failure the retry predicate is evaluated on the
    captured text, and the outcome is discarded if it holds, else
    [record(false)]. *)
Definition record (success : bool) (rs : ResultSet) : ResultSet := (rs ++ [success])%list.

Definition failureCount (rs : ResultSet) : nat := List.length (filter negb rs).

Definition tick (shouldRetry : string -> string -> bool)
  (success : bool) (stdOut stdErr : string) (rs : ResultSet) : ResultSet :=
  if success then record true rs
  else if shouldRetry stdOut stdErr then rs
  else record false rs.

(** Modelled from the spec: [Orchestrator.Run] is in package orchestrator,
    whose source is not at hand.  Spec 4.5: if [performMeasurements] is false
    it returns a failure exit code at once; otherwise success iff the While
    command succeeded and no scheduler ended failed; the exit code is 0 on
    success and 1 on failure, and the While command's error is returned. *)
Definition orchestrator_Run (whileErr : option error) (anyMeasurementFailed : bool)
  (performMeasurements : bool) : Z * option error :=
  if negb performMeasurements then (1, None)
  else match whileErr with
       | Some e => (1, Some e)
       | None => (if anyMeasurementFailed then 1 else 0, None)
       end.

(** ** A workflow whose command descriptors name the method that made them

    Used to run the driver on concrete inputs: each method of the workflow
    answers with one descriptor that records the call. *)

Inductive Described : Type :=
| describe (method : string) (w : CfWorkflow) (ctx : option context.Context)
    (g : CfCmdGenerator).

#[export] Instance describing : CfWorkflowMethods := {|
  CmdStartWaiter := Described;
  Setup w g := [describe "Setup" w None g];
  Push w g := [describe "Push" w None g];
  Delete w g := [describe "Delete" w None g];
  MapRoute w g := [describe "MapRoute" w None g];
  TearDown w g := [describe "TearDown" w None g];
  RecentLogs w g := [describe "RecentLogs" w None g];
  StreamLogs w ctx g := [describe "StreamLogs" w (Some ctx) g];
  AppUrl w := "https://" ++ wf_appName w
|}.

(** ** Concrete invocations *)



Definition sampleConfig : string :=
  dq "{ 'while': [ {'command': 'sleep', 'command_args': ['60']} ],
        'cf': { 'api': 'api.example.com', 'app_domain': 'apps.example.com',
                'admin_user': 'admin', 'admin_password': 'secret',
                'tcp_domain': 'tcp.example.com', 'available_port': 1025 },
        'allowed_failures': { 'app_pushability': 2, 'http_availability': 5,
                              'recent_logs': 2, 'streaming_logs': 2 } }".

(** The same file with a negative tolerance. *)
Definition negativeConfig : string :=
  dq "{ 'allowed_failures': { 'app_pushability': -1, 'http_availability': 0,
                              'recent_logs': 0, 'streaming_logs': 0 } }".

Definition noSuchFile : error := errorString "open: no such file or directory".

(** A file system with two files. *)
Definition sampleFiles (filename : string) : string + error :=
  if String.eqb filename "config.json" then inl sampleConfig
  else if String.eqb filename "negative.json" then inl negativeConfig
  else inr noSuchFile.

Definition quiet : RunOutcome := mkRunOutcome EmptyString EmptyString None.

Definition exitStatus1 : error := errorString "exit status 1".

Definition failing : RunOutcome := mkRunOutcome "FAILED" "Server error" (Some exitStatus1).

(** An invocation of the program: the two flags, the outcome of each build,
    of the two teardown steps and of the measurements; everything else
    succeeds, and [orc.Run] answers as the specification describes it. *)
Definition invocation (configFile : string) (v : bool) (build : string -> option error)
  (tearDowns : RunOutcome) (anyMeasurementFailed : bool) : Env :=
  {| flag_configFile := configFile;
     flag_v := v;
     version_Version := "0.0.1";
     GOPATH := "/go";
     path_Join := fun a b => a ++ b;
     ioutil_ReadFile := sampleFiles;
     buildCmd_Run := build;
     ioutil_TempDir := fun n => inl ("/tmp/uptimer" ++ json.str1 (48 + N.of_nat n));
     uuid_NewV4 := fun n => "uuid" ++ json.str1 (97 + N.of_nat n);
     pushSetup := quiet;
     sinkSetup := quiet;
     orcSetup := quiet;
     orcRun := orchestrator_Run None anyMeasurementFailed;
     orcTearDown := tearDowns;
     pushTearDown := tearDowns |}.

Definition allBuilt (appName : string) : option error := None.

(** Only the build of the syslog sink app fails. *)
Definition sinkBuildFails (appName : string) : option error :=
  if String.eqb appName "syslogSink" then Some exitStatus1 else None.

(** Only the build of the main app fails. *)
Definition appBuildFails (appName : string) : option error :=
  if String.eqb appName "app" then Some exitStatus1 else None.

Section Enabled.

Context {W : CfWorkflowMethods}.

Definition noError (e : option error) : bool :=
  match e with
  | None => true
  | Some _ => false
  end.

(** The five calls of [ioutil.TempDir] in [createTmpDirs] all succeed. *)
Definition tmpDirsCreated (env : Env) : bool :=
  forallb (fun n => match ioutil_TempDir env n with inl _ => true | inr _ => false end)
    [0; 1; 2; 3; 4]%nat.

(** The steps of the setup phase whose failure clears [performMeasurements]. *)
Definition measurementsEnabled (env : Env) : bool :=
  noError (buildCmd_Run env "app")
  && tmpDirsCreated env
  && noError (failure (pushSetup env))
  && noError (failure (sinkSetup env))
  && noError (failure (orcSetup env)).

(** Step [m], started in state [p], returns (it does not exit), with a result
    and a state that satisfy [Q]. *)
Definition returns {A : Type} (m : M A) (p : Process) (Q : A -> Process -> Prop) : Prop :=
  exists (a : A) (p' : Process), m p = (Returned a, p') /\ Q a p'.

(** Step [m], started in state [p], ends the process with [os.Exit], with a
    code and a final state that satisfy [Q]. *)
Definition exits {A : Type} (m : M A) (p : Process) (Q : Z -> Process -> Prop) : Prop :=
  exists (code : Z) (p' : Process), m p = (Exited code, p') /\ Q code p'.

(** A state of the setup phase entered with trace [tr]: setup events only
    have been added since; [nb] buffers and the runners [rs] exist;
    [ioutil.TempDir] was called [td] times and [uuid.NewV4] [nu] times. *)
Definition setupState (tr : list Event) (nb : nat) (rs : list (Writer * Writer))
  (td nu : nat) (p : Process) : Prop :=
  (exists evs : list Event, trace p = (tr ++ evs)%list /\ Forall setupEvent evs) /\
  List.length (buffers p) = nb /\ runners p = rs /\ tempDirs p = td /\ uuids p = nu.

End Enabled.

(** ** Package measurement: an invocation of the AppPushability probe *)


(** ** Allowed-failure counts *)



(** What [config.Load] makes of the two sample files. *)
Definition sampleLoaded : config.Config :=
  Eval vm_compute in
    match config.Load sampleFiles "config.json" with
    | inl cfg => cfg
    | inr _ => config.zeroConfig
    end.



(** ** Vocabulary for the properties of the whole lifecycle *)

(** [ms] occur in [l], in this order (other elements may lie between). *)
Inductive inOrder {A : Type} : list A -> list A -> Prop :=
| inOrder_nil (l : list A) : inOrder [] l
| inOrder_here (x : A) (ms l : list A) : inOrder ms l -> inOrder (x :: ms) (x :: l)
| inOrder_skip (x : A) (ms l : list A) : inOrder ms l -> inOrder ms (x :: l).

Section Lifecycle.

Context {W : CfWorkflowMethods}.

(** The two buffers a command-running probe was constructed with. *)
Definition buffersOf (m : Measurement) : option (nat * nat) :=
  match baseOf m with
  | NewRecentLogs _ _ o e _ => Some (o, e)
  | NewStreamingLogs _ _ o e _ => Some (o, e)
  | NewAppPushability _ _ o e => Some (o, e)
  | _ => None
  end.

(** The period and the number of allowed failures of a periodic measurement. *)
Definition freqOf (m : Measurement) : option time.Duration :=
  match m with
  | NewPeriodic _ _ f _ _ _ _ => Some f
  | _ => None
  end.

Definition allowedFailuresOf (m : Measurement) : option Z :=
  match m with
  | NewPeriodic _ _ _ _ _ n _ => Some n
  | _ => None
  end.

(** The runner ids and the buffer ids that a list of measurements holds. *)
Definition runnersOf (ms : list Measurement) : list CmdRunner :=
  flat_map (fun m => match runnerOf m with Some r => [r] | None => [] end) ms.

Definition allBuffersOf (ms : list Measurement) : list nat :=
  flat_map (fun m => match buffersOf m with Some (o, e) => [o; e] | None => [] end) ms.

(** The directory in which [compileIncludedApp] builds [appName]. *)
Definition appPathOf (env : Env) (appName : string) : string :=
  path_Join env (GOPATH env) ("/src/github.com/cloudfoundry/uptimer/" ++ appName).

(** The workflow that [createWorkflow] makes when [n] UUIDs were drawn before. *)
Definition workflowAt (env : Env) (cfc : option config.Cf) (n : nat)
  (appPath appCommand : string) : CfWorkflow :=
  cfWorkflow_New cfc
    ("uptimer-org-" ++ uuid_NewV4 env n)
    ("uptimer-space-" ++ uuid_NewV4 env (S (S n)))
    ("uptimer-quota-" ++ uuid_NewV4 env (S (S (S n))))
    ("uptimer-app-" ++ uuid_NewV4 env (S n))
    appPath appCommand.

(** The name of the [n]-th temporary directory as [main] gets it: the one
    [ioutil.TempDir] gave if all five calls succeeded, else the empty string. *)
Definition tmpDirName (env : Env) (n : nat) : string :=
  if tmpDirsCreated env then
    match ioutil_TempDir env n with
    | inl d => d
    | inr _ => EmptyString
    end
  else EmptyString.

(** The three workflows of [main] and what [main] holds when setup is over. *)
Definition pushWorkflowOf (env : Env) (cfg : config.Config) : CfWorkflow :=
  workflowAt env (config.CF cfg) 0 (appPathOf env "app") "./app".

Definition sinkWorkflowOf (env : Env) (cfg : config.Config) : CfWorkflow :=
  workflowAt env (config.CF cfg) 4 (appPathOf env "syslogSink") "./syslogSink".

Definition orcWorkflowOf (env : Env) (cfg : config.Config) : CfWorkflow :=
  workflowAt env (config.CF cfg) 8 (appPathOf env "app") "./app".

(** The four measurements of [createMeasurements] when [r] runners and [b]
    buffers exist before. *)
Definition measurementList (lg : Logger) (ow pw : CfWorkflow) (rg sg pg : CfCmdGenerator)
  (af : config.AllowedFailures) (r b : nat) : list Measurement :=
  [ NewPeriodic lg clock_New time.Second
      (NewHTTPAvailability (AppUrl ow)
         (http.Client_lit (http.Transport_lit (tls.mkConfig true))))
      NewResultSet (config.HttpAvailability af) (fun _ _ => false);
    NewPeriodic lg clock_New time.Minute
      (NewAppPushability (appPushCommands pw pg) (r + 2)%nat (b + 4)%nat (b + 5)%nat)
      NewResultSet (config.AppPushability af) authFailedRetryFunc;
    NewPeriodic lg clock_New (10 * time.Second)
      (NewRecentLogs (recentLogsCommands ow rg) r b (b + 1)%nat appLogValidator_New)
      NewResultSet (config.RecentLogs af) authFailedRetryFunc;
    NewPeriodic lg clock_New (30 * time.Second)
      (NewStreamingLogs (streamingLogsCommands ow sg) (r + 1)%nat (b + 2)%nat (b + 3)%nat
         appLogValidator_New)
      NewResultSet (config.StreamingLogs af) authFailedRetryFunc ].

(** The measurements of [main]: made when one runner and two buffers exist,
    for the main workflow and the push workflow, with generators for the
    second, third and fourth temporary directory. *)
Definition measurementsOf (env : Env) (cfg : config.Config) : list Measurement :=
  measurementList uptimerLogger (orcWorkflowOf env cfg) (pushWorkflowOf env cfg)
    (cfCmdGenerator_New (tmpDirName env 1)) (cfCmdGenerator_New (tmpDirName env 2))
    (cfCmdGenerator_New (tmpDirName env 3)) (config.AllowedFailures_ cfg) 1 2.

Definition preparedOf (env : Env) (cfg : config.Config) : Prepared :=
  mkPrepared (measurementsEnabled env)
    (orchestrator_New (config.While cfg) uptimerLogger (orcWorkflowOf env cfg) 4%nat
       (measurementsOf env cfg))
    (cfCmdGenerator_New (tmpDirName env 0))
    (pushWorkflowOf env cfg)
    (cfCmdGenerator_New (tmpDirName env 3))
    0%nat 0%nat 1%nat.

(** The steps of the setup phase that build or run something, in order. *)
Definition setupSteps (env : Env) (cfg : config.Config) : list Event :=
  let pw := pushWorkflowOf env cfg in
  let pg := cfCmdGenerator_New (tmpDirName env 3) in
  let sw := sinkWorkflowOf env cfg in
  let sg := cfCmdGenerator_New (tmpDirName env 4) in
  let og := cfCmdGenerator_New (tmpDirName env 0) in
  [ EBuild (appPathOf env "app");
    EBuild (appPathOf env "syslogSink");
    ERunInSequence 0%nat (Setup pw pg);
    ERunInSequence 0%nat ((Setup sw sg ++ Push sw sg) ++ MapRoute sw sg)%list;
    EOrcSetup 0%nat og ].

(** The steps of a run that passes the flag and config checks, in order. *)
Definition lifecycle (env : Env) (cfg : config.Config) : list Event :=
  (EReadFile (flag_configFile env) :: setupSteps env cfg ++
   [ EOrcRun (measurementsEnabled env);
     EOrcTearDown 0%nat (cfCmdGenerator_New (tmpDirName env 0));
     ERunInSequence 0%nat
       (TearDown (pushWorkflowOf env cfg) (cfCmdGenerator_New (tmpDirName env 3)));
     EExit (fst (orcRun env (measurementsEnabled env))) ])%list.

(** A state of the setup phase entered with trace [tr] (see [setupState]) in
    which the steps [ms] have been recorded since, in this order. *)
Definition reached (tr ms : list Event) (nb : nat) (rs : list (Writer * Writer))
  (td nu : nat) (p : Process) : Prop :=
  (exists evs : list Event,
     trace p = (tr ++ evs)%list /\ Forall setupEvent evs /\ inOrder ms evs) /\
  List.length (buffers p) = nb /\ runners p = rs /\ tempDirs p = td /\ uuids p = nu.

(** [env] with other answers of [ioutil.TempDir], and with other outcomes of
    the three setups. *)
Definition withTempDir (env : Env) (f : nat -> string + error) : Env :=
  {| flag_configFile := flag_configFile env;
     flag_v := flag_v env;
     version_Version := version_Version env;
     GOPATH := GOPATH env;
     path_Join := path_Join env;
     ioutil_ReadFile := ioutil_ReadFile env;
     buildCmd_Run := buildCmd_Run env;
     ioutil_TempDir := f;
     uuid_NewV4 := uuid_NewV4 env;
     pushSetup := pushSetup env;
     sinkSetup := sinkSetup env;
     orcSetup := orcSetup env;
     orcRun := orcRun env;
     orcTearDown := orcTearDown env;
     pushTearDown := pushTearDown env |}.

Definition withUuid (env : Env) (f : nat -> string) : Env :=
  {| flag_configFile := flag_configFile env;
     flag_v := flag_v env;
     version_Version := version_Version env;
     GOPATH := GOPATH env;
     path_Join := path_Join env;
     ioutil_ReadFile := ioutil_ReadFile env;
     buildCmd_Run := buildCmd_Run env;
     ioutil_TempDir := ioutil_TempDir env;
     uuid_NewV4 := f;
     pushSetup := pushSetup env;
     sinkSetup := sinkSetup env;
     orcSetup := orcSetup env;
     orcRun := orcRun env;
     orcTearDown := orcTearDown env;
     pushTearDown := pushTearDown env |}.

Definition withSetups (env : Env) (push sink main : RunOutcome) : Env :=
  {| flag_configFile := flag_configFile env;
     flag_v := flag_v env;
     version_Version := version_Version env;
     GOPATH := GOPATH env;
     path_Join := path_Join env;
     ioutil_ReadFile := ioutil_ReadFile env;
     buildCmd_Run := buildCmd_Run env;
     ioutil_TempDir := ioutil_TempDir env;
     uuid_NewV4 := uuid_NewV4 env;
     pushSetup := push;
     sinkSetup := sink;
     orcSetup := main;
     orcRun := orcRun env;
     orcTearDown := orcTearDown env;
     pushTearDown := pushTearDown env |}.

End Lifecycle.

(** ** Vocabulary for what [config.Load] accepts *)

(** A JSON value that names no field of [Config]: [null], or an object none
    of whose keys selects a field. *)
Definition namesNoField (v : json.Value) : Prop :=
  match v with
  | json.Null => True
  | json.Object ms =>
      Forall (fun kv => json.findField config.configFields (fst kv) = None) ms
  | _ => False
  end.

(** A JSON value that is neither an object nor [null]. *)
Definition notAnObject (v : json.Value) : bool :=
  match v with
  | json.Null | json.Object _ => false
  | _ => true
  end.

(** A JSON value that no [int] field takes: anything but [null] and a number
    literal that [strconv.ParseInt] reads as a 64-bit integer. *)
Definition notAnInt (v : json.Value) : bool :=
  match v with
  | json.Null => false
  | json.Number lit => match json.ParseInt lit with Some _ => false | None => true end
  | _ => true
  end.

(** ** More concrete inputs *)

Definition noSpace : error := errorString "no space left on device".

(** The third call of [ioutil.TempDir] fails, the others succeed. *)
Definition thirdTempDirFails (n : nat) : string + error :=
  if (n =? 2)%nat then inr noSpace else inl ("/tmp/uptimer" ++ json.str1 (48 + N.of_nat n)).

(** A UUID source that never repeats: the [n]-th UUID is [n] letters long. *)
Fixpoint unary (n : nat) : string :=
  match n with
  | O => EmptyString
  | S n' => String "u" (unary n')
  end.

(** A file system with files that [config.Load] reads in unusual ways. *)
Definition oddFiles (filename : string) : string + error :=
  if String.eqb filename "null.json" then inl "null"
  else if String.eqb filename "unknown.json" then inl (dq "{ 'verbose': true, 'retries': 3 }")
  else if String.eqb filename "array.json" then inl "[1, 2]"
  else if String.eqb filename "fraction.json" then
    inl (dq "{ 'allowed_failures': { 'app_pushability': 1.5 } }")
  else inr noSuchFile.

(** An invocation in which the third temporary directory cannot be made, and
    one whose UUIDs never repeat. *)
Definition tmpDirFailure : Env :=
  withTempDir (invocation "config.json" false allBuilt quiet false) thirdTempDirFails.

Definition uniqueUuids : Env :=
  withUuid (invocation "config.json" false allBuilt quiet false) unary.
(** * Theorems *)

Lemma HasPrefix_occurs (p s : string) :
  strings.HasPrefix s p = true <-> exists post, s = p ++ post.
Proof.
  revert s; induction p as [|c p IH]; intros s; simpl.
  - split; [intros _; now exists s | reflexivity].
  - destruct s as [|d s]; simpl.
    + split; [discriminate | intros [post H]; discriminate].
    + rewrite andb_true_iff, Ascii.eqb_eq, IH. split.
      * intros [-> [post ->]]. now exists post.
      * intros [post H]. injection H as -> ->. split; [reflexivity | now exists post].
Qed.

Lemma Contains_occurs (s sub : string) :
  strings.Contains s sub = true <-> occurs_in sub s.
Proof.
  unfold strings.Contains, strings.Index, occurs_in.
  assert (G : forall i, 0 <= i ->
            ((strings.IndexFrom i s sub >=? 0) = true <->
             exists pre post, s = pre ++ sub ++ post)).
  { induction s as [|c s IH]; intros i Hi.
    - cbn [strings.IndexFrom]. destruct (strings.HasPrefix EmptyString sub) eqn:E.
      + apply HasPrefix_occurs in E. destruct E as [post E].
        split; [intros _; exists EmptyString, post; exact E | intros _; lia].
      + split; [intros H; lia |].
        intros [pre [post H]]. destruct pre; [| discriminate].
        simpl in H. assert (strings.HasPrefix EmptyString sub = true)
          by (apply HasPrefix_occurs; now exists post).
        congruence.
    - cbn [strings.IndexFrom]. destruct (strings.HasPrefix (String c s) sub) eqn:E.
      + apply HasPrefix_occurs in E. destruct E as [post E].
        split; [intros _; exists EmptyString, post; exact E | intros _; lia].
      + rewrite (IH (i + 1)) by lia. split.
        * intros [pre [post ->]]. now exists (String c pre), post.
        * intros [pre [post H]]. destruct pre as [|d pre].
          -- simpl in H. assert (strings.HasPrefix (String c s) sub = true)
               by (apply HasPrefix_occurs; now exists post).
             congruence.
          -- simpl in H. injection H as _ ->. now exists pre, post. }
  apply G; lia.
Qed.

(** C5. [authFailedRetryFunc] is a function of its two arguments alone, and it
    answers true exactly when the expired-session message occurs in [stdOut]
    or in [stdErr]; no other text makes it answer true. *)
Theorem authFailedRetryFunc_iff (stdOut stdErr : string) :
  authFailedRetryFunc stdOut stdErr = true <->
  occurs_in "Authentication has expired.  Please log back in to re-authenticate." stdOut \/
  occurs_in "Authentication has expired.  Please log back in to re-authenticate." stdErr.
Proof.
  unfold authFailedRetryFunc. rewrite orb_true_iff, !Contains_occurs. reflexivity.
Qed.

(** ** The measurements that [createMeasurements] constructs *)

Section MeasurementFacts.

Context {W : CfWorkflowMethods}.

Variables (lg : Logger) (ow pw : CfWorkflow) (rg sg pg : CfCmdGenerator).
Variable af : config.AllowedFailures.

Lemma bind_returns {A B} (m : M A) (k : A -> M B) (p p' : Process) (a : A) :
  m p = (Returned a, p') -> bind m k p = k a p'.
Proof. intros H. unfold bind. now rewrite H. Qed.

(** main.go:324-329: two new buffers, and a runner that writes to them. *)
Lemma createBufferedRunner_eq (p : Process) :
  createBufferedRunner p =
  (Returned (List.length (runners p), List.length (buffers p),
             (List.length (buffers p) + 1)%nat),
   mkProcess (trace p) (buffers p ++ [EmptyString; EmptyString])
     (runners p ++ [ (Buffer (List.length (buffers p)),
                      Buffer (List.length (buffers p) + 1)%nat) ])
     (tempDirs p) (uuids p)).
Proof.
  destruct p as [t bs rs d u].
  unfold createBufferedRunner, bind, ret, bytes_NewBuffer, cmdRunner_New.
  cbn [buffers runners trace tempDirs uuids].
  rewrite length_app, <- app_assoc. reflexivity.
Qed.

(** [createMeasurements] returns, creates six buffers and three runners, and
    gives each command-running probe the runner made for it. *)
Lemma createMeasurements_eq (p : Process) :
  let b := List.length (buffers p) in
  let r := List.length (runners p) in
  createMeasurements lg ow pw rg sg pg af p =
  (Returned
     [ NewPeriodic lg clock_New time.Second
         (NewHTTPAvailability (AppUrl ow)
            (http.Client_lit (http.Transport_lit (tls.mkConfig true))))
         NewResultSet (config.HttpAvailability af) (fun _ _ => false);
       NewPeriodic lg clock_New time.Minute
         (NewAppPushability (appPushCommands pw pg) (r + 2)%nat (b + 4)%nat (b + 5)%nat)
         NewResultSet (config.AppPushability af) authFailedRetryFunc;
       NewPeriodic lg clock_New (10 * time.Second)
         (NewRecentLogs (recentLogsCommands ow rg) r b (b + 1)%nat appLogValidator_New)
         NewResultSet (config.RecentLogs af) authFailedRetryFunc;
       NewPeriodic lg clock_New (30 * time.Second)
         (NewStreamingLogs (streamingLogsCommands ow sg) (r + 1)%nat (b + 2)%nat (b + 3)%nat
            appLogValidator_New)
         NewResultSet (config.StreamingLogs af) authFailedRetryFunc ],
   mkProcess (trace p)
     (buffers p ++ repeat EmptyString 6)
     (runners p ++ [ (Buffer b, Buffer (b + 1)%nat);
                     (Buffer (b + 2)%nat, Buffer (b + 3)%nat);
                     (Buffer (b + 4)%nat, Buffer (b + 5)%nat) ])
     (tempDirs p) (uuids p)).
Proof.
  intros b r. subst b r. destruct p as [t bs rs d u]. cbn [buffers runners trace tempDirs uuids].
  unfold createMeasurements.
  rewrite (bind_returns _ _ _ _ _ (createBufferedRunner_eq _)). cbv beta iota.
  rewrite (bind_returns _ _ _ _ _ (createBufferedRunner_eq _)). cbv beta iota.
  rewrite (bind_returns _ _ _ _ _ (createBufferedRunner_eq _)). cbv beta iota.
  cbn [buffers runners trace tempDirs uuids]. unfold ret.
  rewrite !length_app. cbn [List.length].
  rewrite <- !app_assoc, <- !Nat.add_assoc. reflexivity.
Qed.

Lemma measurementsFrom_eq (p : Process) :
  measurementsFrom lg ow pw rg sg pg af p =
  fst (let b := List.length (buffers p) in
       let r := List.length (runners p) in
       ([ NewPeriodic lg clock_New time.Second
            (NewHTTPAvailability (AppUrl ow)
               (http.Client_lit (http.Transport_lit (tls.mkConfig true))))
            NewResultSet (config.HttpAvailability af) (fun _ _ => false);
          NewPeriodic lg clock_New time.Minute
            (NewAppPushability (appPushCommands pw pg) (r + 2)%nat (b + 4)%nat (b + 5)%nat)
            NewResultSet (config.AppPushability af) authFailedRetryFunc;
          NewPeriodic lg clock_New (10 * time.Second)
            (NewRecentLogs (recentLogsCommands ow rg) r b (b + 1)%nat appLogValidator_New)
            NewResultSet (config.RecentLogs af) authFailedRetryFunc;
          NewPeriodic lg clock_New (30 * time.Second)
            (NewStreamingLogs (streamingLogsCommands ow sg) (r + 1)%nat (b + 2)%nat
               (b + 3)%nat appLogValidator_New)
            NewResultSet (config.StreamingLogs af) authFailedRetryFunc ], tt)).
Proof.
  unfold measurementsFrom. rewrite createMeasurements_eq. reflexivity.
Qed.


(** C4.  The StreamingLogs probe is the fourth measurement.  Each call of its
    command supplier creates a context that did not exist before, returns the
    cancel function of that very context, sets the context's deadline to the
    clock reading of the call plus exactly 15 seconds (15000000000 ns), and
    hands that context to [StreamLogs]. *)
Theorem streamingLogs_supplier_fresh_context (p : Process) (rt : context.Runtime) :
  exists (m : Measurement) f (ctx : context.Context) (cancel : context.CancelFunc)
         (rt' : context.Runtime),
    nth_error (measurementsFrom lg ow pw rg sg pg af p) 3 = Some m /\
    kindOf m = Some StreamingLogs_ /\
    streamingLogsSupplierOf m = Some f /\
    f rt = ((ctx, cancel, StreamLogs ow ctx sg), rt') /\
    context.ident ctx = Some (context.created rt) /\
    cancel = context.created rt /\
    context.created rt' = S (context.created rt) /\
    context.Deadline ctx = Some (context.now rt + 15000000000).
Proof.
  rewrite measurementsFrom_eq. cbn.
  eexists _, _, _, _, _. do 7 (split; [reflexivity |]). reflexivity.
Qed.

(** Two calls of the supplier, one after the other, give two different contexts. *)
Lemma streamingLogs_supplier_contexts_differ (rt : context.Runtime) :
  let '((ctx1, _, _), rt1) := streamingLogsCommands ow sg rt in
  let '((ctx2, _, _), _) := streamingLogsCommands ow sg rt1 in
  context.ident ctx1 <> context.ident ctx2.
Proof.
  cbn. intros H. injection H as H. lia.
Qed.

(** C10.  The HTTPAvailability measurement's retry predicate answers false on
    every pair of texts, so a failed tick of it always records a failure and
    raises the failure count by one; the other three measurements all have
    [authFailedRetryFunc], which does answer true on some texts. *)
Theorem httpAvailability_never_retries (p : Process) :
  exists (m0 m1 m2 m3 : Measurement) (f0 : string -> string -> bool),
    measurementsFrom lg ow pw rg sg pg af p = [m0; m1; m2; m3] /\
    kindOf m0 = Some HTTPAvailability /\
    shouldRetryOf m0 = Some f0 /\
    (forall stdOut stdErr : string, f0 stdOut stdErr = false) /\
    (forall (stdOut stdErr : string) (rs : ResultSet),
        tick f0 false stdOut stdErr rs = record false rs /\
        failureCount (tick f0 false stdOut stdErr rs) = S (failureCount rs)) /\
    kindOf m1 = Some AppPushability /\
    kindOf m2 = Some RecentLogs_ /\
    kindOf m3 = Some StreamingLogs_ /\
    shouldRetryOf m1 = Some authFailedRetryFunc /\
    shouldRetryOf m2 = Some authFailedRetryFunc /\
    shouldRetryOf m3 = Some authFailedRetryFunc /\
    (exists stdOut stdErr : string, authFailedRetryFunc stdOut stdErr = true).
Proof.
  rewrite measurementsFrom_eq. cbn.
  eexists _, _, _, _, _. split; [reflexivity |].
  cbn. do 3 (split; [reflexivity |]).
  split.
  - intros stdOut stdErr rs. split; [reflexivity |].
    unfold tick, record, failureCount. cbn.
    rewrite filter_app, length_app. cbn. lia.
  - do 6 (split; [reflexivity |]).
    exists authFailedMessage, EmptyString. reflexivity.
Qed.

End MeasurementFacts.


(** ** The driver *)

Section MainFacts.

Context {W : CfWorkflowMethods}.

(** *** Steps of the setup phase, one at a time *)

Lemma returns_bind {A B} (m : M A) (k : A -> M B) (p : Process)
  (R : A -> Process -> Prop) (Q : B -> Process -> Prop) :
  returns m p R -> (forall a p', R a p' -> returns (k a) p' Q) -> returns (bind m k) p Q.
Proof.
  intros (a & p' & Hm & HR) Hk.
  destruct (Hk a p' HR) as (b & p'' & Hb & HQ).
  exists b, p''. split; [| exact HQ].
  unfold bind. rewrite Hm. exact Hb.
Qed.

Lemma returns_ret {A} (a : A) (p : Process) (Q : A -> Process -> Prop) :
  Q a p -> returns (ret a) p Q.
Proof. intros H. exists a, p. split; [reflexivity | exact H]. Qed.

Lemma length_setNth {A} (i : nat) (x : A) (l : list A) :
  List.length (json.setNth i x l) = List.length l.
Proof.
  revert i. induction l as [| h t IH]; intros [| i]; cbn; try reflexivity.
  f_equal. apply IH.
Qed.

Lemma setupState_start (tr : list Event) (nb : nat) (bufs : list string)
  (rs : list (Writer * Writer)) (td nu : nat) :
  List.length bufs = nb -> setupState tr nb rs td nu (mkProcess tr bufs rs td nu).
Proof.
  intros Hb. split; [| now repeat split].
  exists []. cbn. now rewrite app_nil_r.
Qed.

Section Steps.

Variables (tr : list Event) (nb : nat) (rs : list (Writer * Writer)) (td nu : nat).

Lemma emit_keeps (e : Event) (p : Process) :
  setupEvent e -> setupState tr nb rs td nu p ->
  returns (emit e) p (fun _ => setupState tr nb rs td nu).
Proof.
  intros He ((evs & Ht & Hf) & Hb & Hr & Htd & Hu).
  exists tt. eexists. split; [reflexivity |].
  split; [| now repeat split].
  exists (evs ++ [e])%list. cbn. rewrite Ht, app_assoc. split; [reflexivity |].
  apply Forall_app. split; [exact Hf | now constructor].
Qed.

Lemma Println_keeps (a : list arg) (p : Process) :
  setupState tr nb rs td nu p ->
  returns (Println a) p (fun _ => setupState tr nb rs td nu).
Proof. apply emit_keeps. exact I. Qed.

Lemma Printf_keeps (format : string) (a : list arg) (p : Process) :
  setupState tr nb rs td nu p ->
  returns (Printf format a) p (fun _ => setupState tr nb rs td nu).
Proof. apply emit_keeps. exact I. Qed.

Lemma compileIncludedApp_keeps (env : Env) (appName : string) (p : Process) :
  setupState tr nb rs td nu p ->
  returns (compileIncludedApp env appName) p
    (fun a p' => snd a = buildCmd_Run env appName /\ setupState tr nb rs td nu p').
Proof.
  intros H. unfold compileIncludedApp.
  eapply returns_bind; [apply emit_keeps; [exact I | exact H] |].
  intros [] p' H'. apply returns_ret. now split.
Qed.

Lemma write_keeps (w : Writer) (text : string) (p : Process) :
  setupState tr nb rs td nu p ->
  returns (write w text) p (fun _ => setupState tr nb rs td nu).
Proof.
  intros (Ht & Hb & Hr & Htd & Hu).
  exists tt. eexists. split; [reflexivity |].
  destruct w; try (now repeat split).
  split; [exact Ht |]. cbn. rewrite length_setNth. now repeat split.
Qed.

Lemma runnerWrites_keeps (r : CmdRunner) (o : RunOutcome) (p : Process) :
  setupState tr nb rs td nu p ->
  returns (runnerWrites r o) p (fun _ => setupState tr nb rs td nu).
Proof.
  intros H. unfold returns, runnerWrites.
  destruct (nth_error (runners p) r) as [[out er] |].
  - eapply returns_bind; [apply write_keeps, H |].
    intros [] p' H'. apply write_keeps, H'.
  - exists tt, p. now split.
Qed.

Lemma RunInSequence_keeps (r : CmdRunner) (cmds : list CmdStartWaiter) (o : RunOutcome)
  (p : Process) :
  setupState tr nb rs td nu p ->
  returns (RunInSequence r cmds o) p
    (fun e p' => e = failure o /\ setupState tr nb rs td nu p').
Proof.
  intros H. unfold RunInSequence.
  eapply returns_bind; [apply emit_keeps; [exact I | exact H] |].
  intros [] p1 H1.
  eapply returns_bind; [apply runnerWrites_keeps, H1 |].
  intros [] p2 H2. apply returns_ret. now split.
Qed.

Lemma orc_Setup_keeps (o : Orchestrator) (r : CmdRunner) (g : CfCmdGenerator)
  (out : RunOutcome) (p : Process) :
  setupState tr nb rs td nu p ->
  returns (orc_Setup o r g out) p
    (fun e p' => e = failure out /\ setupState tr nb rs td nu p').
Proof.
  intros H. unfold orc_Setup.
  eapply returns_bind; [apply emit_keeps; [exact I | exact H] |].
  intros [] p1 H1.
  eapply returns_bind; [apply runnerWrites_keeps, H1 |].
  intros [] p2 H2. apply returns_ret. now split.
Qed.

Lemma Buffer_String_keeps (b : nat) (p : Process) :
  setupState tr nb rs td nu p ->
  returns (Buffer_String b) p (fun _ => setupState tr nb rs td nu).
Proof. intros H. eexists. exists p. now split. Qed.

Lemma Buffer_Reset_keeps (b : nat) (p : Process) :
  setupState tr nb rs td nu p ->
  returns (Buffer_Reset b) p (fun _ => setupState tr nb rs td nu).
Proof.
  intros (Ht & Hb & Hr & Htd & Hu).
  exists tt. eexists. split; [reflexivity |].
  split; [exact Ht |]. cbn. rewrite length_setNth. now repeat split.
Qed.

Lemma logBufferedRunnerFailure_keeps (logger : Logger) (whatFailed : string) (e : error)
  (outBuf errBuf : nat) (p : Process) :
  setupState tr nb rs td nu p ->
  returns (logBufferedRunnerFailure logger whatFailed e outBuf errBuf) p
    (fun _ => setupState tr nb rs td nu).
Proof.
  intros H. unfold logBufferedRunnerFailure.
  eapply returns_bind; [apply Buffer_String_keeps, H |]. intros o p1 H1.
  eapply returns_bind; [apply Buffer_String_keeps, H1 |]. intros s p2 H2.
  eapply returns_bind; [apply Printf_keeps, H2 |]. intros [] p3 H3.
  eapply returns_bind; [apply Buffer_Reset_keeps, H3 |]. intros [] p4 H4.
  apply Buffer_Reset_keeps, H4.
Qed.

Lemma TempDir_counts (env : Env) (p : Process) :
  setupState tr nb rs td nu p ->
  returns (TempDir env) p
    (fun r p' => r = ioutil_TempDir env td /\ setupState tr nb rs (S td) nu p').
Proof.
  intros ((evs & Ht & Hf) & Hb & Hr & Htd & Hu).
  eexists. eexists. split; [reflexivity |].
  split; [now rewrite Htd |].
  split; [| cbn; now repeat split; try f_equal].
  exists (evs ++ [ETempDir])%list. cbn. rewrite Ht, app_assoc. split; [reflexivity |].
  apply Forall_app. split; [exact Hf | now constructor].
Qed.

Lemma NewV4_counts (env : Env) (p : Process) :
  setupState tr nb rs td nu p ->
  returns (NewV4 env) p (fun _ => setupState tr nb rs td (S nu)).
Proof.
  intros (Ht & Hb & Hr & Htd & Hu).
  eexists. eexists. split; [reflexivity |].
  split; [exact Ht |]. cbn. now repeat split; try f_equal.
Qed.

Lemma bytes_NewBuffer_counts (p : Process) :
  setupState tr nb rs td nu p ->
  returns bytes_NewBuffer p (fun b p' => b = nb /\ setupState tr (S nb) rs td nu p').
Proof.
  intros (Ht & Hb & Hr & Htd & Hu).
  eexists. eexists. split; [reflexivity |].
  split; [exact Hb |].
  split; [exact Ht |]. cbn. rewrite length_app, Hb. cbn.
  now repeat split; try apply Nat.add_1_r.
Qed.

Lemma cmdRunner_New_counts (outWriter errWriter : Writer) (p : Process) :
  setupState tr nb rs td nu p ->
  returns (cmdRunner_New outWriter errWriter) p
    (fun r p' => r = List.length rs /\
                 setupState tr nb (rs ++ [(outWriter, errWriter)]) td nu p').
Proof.
  intros (Ht & Hb & Hr & Htd & Hu).
  eexists. eexists. split; [reflexivity |].
  split; [now rewrite Hr |].
  split; [exact Ht |]. cbn. now repeat split; try f_equal.
Qed.

End Steps.

Lemma createBufferedRunner_counts (tr : list Event) (nb : nat) (rs : list (Writer * Writer))
  (td nu : nat) (p : Process) :
  setupState tr nb rs td nu p ->
  returns createBufferedRunner p
    (fun a p' => a = (List.length rs, nb, S nb) /\
                 setupState tr (S (S nb)) (rs ++ [(Buffer nb, Buffer (S nb))]) td nu p').
Proof.
  intros H. unfold createBufferedRunner.
  eapply returns_bind; [eapply bytes_NewBuffer_counts, H |]. intros o p1 (-> & H1).
  eapply returns_bind; [eapply bytes_NewBuffer_counts, H1 |]. intros e p2 (-> & H2).
  eapply returns_bind; [eapply cmdRunner_New_counts, H2 |]. intros r p3 (-> & H3).
  apply returns_ret. now split.
Qed.

Lemma createWorkflow_counts (tr : list Event) (nb : nat) (rs : list (Writer * Writer))
  (td nu : nat) (env : Env) (cfc : option config.Cf) (appPath appCommand : string)
  (p : Process) :
  setupState tr nb rs td nu p ->
  returns (createWorkflow env cfc appPath appCommand) p
    (fun _ => setupState tr nb rs td (4 + nu)).
Proof.
  intros H. unfold createWorkflow.
  eapply returns_bind; [eapply NewV4_counts, H |]. intros u1 p1 H1.
  eapply returns_bind; [eapply NewV4_counts, H1 |]. intros u2 p2 H2.
  eapply returns_bind; [eapply NewV4_counts, H2 |]. intros u3 p3 H3.
  eapply returns_bind; [eapply NewV4_counts, H3 |]. intros u4 p4 H4.
  apply returns_ret. exact H4.
Qed.

Lemma createMeasurements_counts (tr : list Event) (nb : nat) (rs : list (Writer * Writer))
  (td nu : nat) (lg : Logger) (ow pw : CfWorkflow) (rg sg pg : CfCmdGenerator)
  (af : config.AllowedFailures) (p : Process) :
  setupState tr nb rs td nu p ->
  returns (createMeasurements lg ow pw rg sg pg af) p
    (fun _ =>
       setupState tr (nb + 6)
         (rs ++ [ (Buffer nb, Buffer (nb + 1)%nat);
                  (Buffer (nb + 2)%nat, Buffer (nb + 3)%nat);
                  (Buffer (nb + 4)%nat, Buffer (nb + 5)%nat) ]) td nu).
Proof.
  intros (Ht & Hb & Hr & Htd & Hu).
  eexists. eexists. split; [apply createMeasurements_eq |].
  split; [exact Ht |]. cbn [buffers runners tempDirs uuids].
  rewrite length_app, repeat_length, Hb, Hr. now repeat split.
Qed.

Lemma createTmpDirs_counts (tr : list Event) (nb : nat) (rs : list (Writer * Writer))
  (nu : nat) (env : Env) (p : Process) :
  setupState tr nb rs 0 nu p ->
  returns (createTmpDirs env) p
    (fun a p' => noError (snd a) = tmpDirsCreated env /\
                 exists td, setupState tr nb rs td nu p').
Proof.
  intros H. unfold createTmpDirs, tmpDirsCreated. cbn [forallb].
  eapply returns_bind; [eapply TempDir_counts, H |]. intros r p1 (-> & H1).
  destruct (ioutil_TempDir env 0) as [d0 | e]; [| apply returns_ret; split; [reflexivity | eauto]].
  eapply returns_bind; [eapply TempDir_counts, H1 |]. intros r p2 (-> & H2).
  destruct (ioutil_TempDir env 1) as [d1 | e]; [| apply returns_ret; split; [reflexivity | eauto]].
  eapply returns_bind; [eapply TempDir_counts, H2 |]. intros r p3 (-> & H3).
  destruct (ioutil_TempDir env 2) as [d2 | e]; [| apply returns_ret; split; [reflexivity | eauto]].
  eapply returns_bind; [eapply TempDir_counts, H3 |]. intros r p4 (-> & H4).
  destruct (ioutil_TempDir env 3) as [d3 | e]; [| apply returns_ret; split; [reflexivity | eauto]].
  eapply returns_bind; [eapply TempDir_counts, H4 |]. intros r p5 (-> & H5).
  destruct (ioutil_TempDir env 4) as [d4 | e]; apply returns_ret; split; try reflexivity; eauto.
Qed.

(** A step whose failure is logged with the buffered output and clears
    [performMeasurements] (main.go:86-91, 101-106, 133-138). *)
Lemma cleared_when_failed (tr : list Event) (nb : nat) (rs : list (Writer * Writer))
  (td nu : nat) (logger : Logger) (whatFailed : string) (e : option error)
  (outBuf errBuf : nat) (finished : list arg) (performMeasurements : bool) (p : Process) :
  setupState tr nb rs td nu p ->
  returns
    (match e with
     | Some e =>
         bind (logBufferedRunnerFailure logger whatFailed e outBuf errBuf) (fun _ => ret false)
     | None => bind (Println finished) (fun _ => ret performMeasurements)
     end) p
    (fun b p' => b = performMeasurements && noError e /\ setupState tr nb rs td nu p').
Proof.
  intros H. destruct e as [e |]; cbn [noError].
  - eapply returns_bind; [apply logBufferedRunnerFailure_keeps, H |].
    intros [] p' H'. apply returns_ret. split; [now rewrite andb_false_r | exact H'].
  - eapply returns_bind; [apply Println_keeps, H |].
    intros [] p' H'. apply returns_ret. split; [now rewrite andb_true_r | exact H'].
Qed.

(** A step whose failure is logged in one line and clears
    [performMeasurements] (main.go:60-64, 75-79). *)
Lemma cleared_when_not_made (tr : list Event) (nb : nat) (rs : list (Writer * Writer))
  (td nu : nat) (failed : error -> list arg) (e : option error)
  (performMeasurements : bool) (p : Process) :
  setupState tr nb rs td nu p ->
  returns
    (match e with
     | Some e => bind (Println (failed e)) (fun _ => ret false)
     | None => ret performMeasurements
     end) p
    (fun b p' => b = performMeasurements && noError e /\ setupState tr nb rs td nu p').
Proof.
  intros H. destruct e as [e |]; cbn [noError].
  - eapply returns_bind; [apply Println_keeps, H |].
    intros [] p' H'. apply returns_ret. split; [now rewrite andb_false_r | exact H'].
  - apply returns_ret. split; [now rewrite andb_true_r | exact H].
Qed.

Ltac next := cbv beta iota zeta.

(** The setup phase returns (it has no exit), records setup events only,
    creates the buffered runner first, and leaves [performMeasurements] true
    exactly when the main app was built, the temporary directories were made
    and the three setups succeeded. *)
Lemma prepare_returns (env : Env) (cfg : config.Config) (tr : list Event) (p : Process) :
  setupState tr 0 [] 0 0 p ->
  returns (prepare env uptimerLogger cfg) p
    (fun s p' =>
       (exists (o : Orchestrator) (g : CfCmdGenerator) (pw : CfWorkflow) (pg : CfCmdGenerator),
          s = mkPrepared (measurementsEnabled env) o g pw pg 0%nat 0%nat 1%nat) /\
       exists td : nat,
         setupState tr 8
           [ (Buffer 0%nat, Buffer 1%nat); (Buffer 2%nat, Buffer 3%nat);
             (Buffer 4%nat, Buffer 5%nat); (Buffer 6%nat, Buffer 7%nat);
             (os_Stdout, os_Stderr) ]
           td 12 p').
Proof.
  intros H0. unfold prepare. next.
  (* main.go:57-66: the main app *)
  eapply returns_bind; [apply Println_keeps, H0 |]. intros [] p1 H1. next.
  eapply returns_bind; [apply compileIncludedApp_keeps, H1 |].
  intros [appPath e] p2 (He & H2). cbn in He. subst e. next.
  eapply returns_bind;
    [apply (cleared_when_not_made tr 0 [] 0 0
              (fun e => [str "Failed to build included app: "; err e])), H2 |].
  intros pm p3 (-> & H3). next. cbn [andb].
  eapply returns_bind; [apply Println_keeps, H3 |]. intros [] p4 H4. next.
  (* main.go:67-72: the syslog sink app *)
  eapply returns_bind; [apply Println_keeps, H4 |]. intros [] p5 H5. next.
  eapply returns_bind; [apply compileIncludedApp_keeps, H5 |].
  intros [sinkAppPath sinkErr] p6 (_ & H6). next.
  eapply returns_bind with (R := fun _ => setupState tr 0 [] 0 0).
  { destruct sinkErr; [apply Println_keeps, H6 | apply returns_ret, H6]. }
  intros [] p7 H7. next.
  eapply returns_bind; [apply Println_keeps, H7 |]. intros [] p8 H8. next.
  (* main.go:74-79: the temporary directories *)
  eapply returns_bind; [apply createTmpDirs_counts, H8 |].
  intros [[[[[orcTmpDir recentLogsTmpDir] streamingLogsTmpDir] pushTmpDir] sinkTmpDir] e]
    p9 (He & td & H9).
  cbn in He. next.
  eapply returns_bind;
    [apply (cleared_when_not_made tr 0 [] td 0
              (fun e => [str "Failed to create temp dir:"; err e])), H9 |].
  intros pm p10 (-> & H10). rewrite He. clear He e. next.
  (* main.go:81-92: the push workflow *)
  eapply returns_bind; [apply createBufferedRunner_counts, H10 |].
  intros [[bufferedRunner runnerOutBuf] runnerErrBuf] p11 (Heq & H11).
  injection Heq as -> -> ->. cbn in H11. next.
  eapply returns_bind; [eapply createWorkflow_counts, H11 |].
  intros [[pushWorkflow pushOrg] pushApp] p12 H12. next.
  eapply returns_bind; [apply Printf_keeps, H12 |]. intros [] p13 H13. next.
  eapply returns_bind; [apply RunInSequence_keeps, H13 |]. intros e p14 (-> & H14). next.
  eapply returns_bind; [apply cleared_when_failed, H14 |]. intros pm p15 (-> & H15). next.
  (* main.go:94-107: the sink workflow *)
  eapply returns_bind; [eapply createWorkflow_counts, H15 |].
  intros [[sinkWorkflow sinkOrg] sinkApp] p16 H16. next.
  eapply returns_bind; [apply Printf_keeps, H16 |]. intros [] p17 H17. next.
  eapply returns_bind; [apply RunInSequence_keeps, H17 |]. intros e p18 (-> & H18). next.
  eapply returns_bind; [apply cleared_when_failed, H18 |]. intros pm p19 (-> & H19). next.
  (* main.go:109-138: the measurements and the orchestrator *)
  eapply returns_bind; [eapply createWorkflow_counts, H19 |].
  intros [[orcWorkflow orcOrg] orcApp] p20 H20. next.
  eapply returns_bind; [eapply createMeasurements_counts, H20 |].
  intros measurements p21 H21. next.
  eapply returns_bind; [apply cmdRunner_New_counts, H21 |]. intros r p22 (-> & H22). next.
  eapply returns_bind; [apply Printf_keeps, H22 |]. intros [] p23 H23. next.
  eapply returns_bind; [apply orc_Setup_keeps, H23 |]. intros e p24 (-> & H24). next.
  eapply returns_bind; [apply cleared_when_failed, H24 |]. intros pm p25 (-> & H25). next.
  apply returns_ret. split.
  - eexists _, _, _, _. reflexivity.
  - exists td. exact H25.
Qed.

Lemma prepare_spec (env : Env) (cfg : config.Config) (tr : list Event) :
  exists (o : Orchestrator) (g : CfCmdGenerator) (pw : CfWorkflow) (pg : CfCmdGenerator)
         (evs : list Event) (bufs : list string) (td : nat),
    prepare env uptimerLogger cfg (mkProcess tr [] [] 0%nat 0%nat) =
    (Returned (mkPrepared (measurementsEnabled env) o g pw pg 0%nat 0%nat 1%nat),
     mkProcess (tr ++ evs) bufs
       [ (Buffer 0%nat, Buffer 1%nat); (Buffer 2%nat, Buffer 3%nat);
         (Buffer 4%nat, Buffer 5%nat); (Buffer 6%nat, Buffer 7%nat);
         (os_Stdout, os_Stderr) ]
       td 12%nat) /\
    Forall setupEvent evs.
Proof.
  destruct (prepare_returns env cfg tr _ (setupState_start tr 0 [] [] 0 0 eq_refl))
    as (s & p' & Heq & (o & g & pw & pg & ->) & td & (evs & Ht & Hf) & Hb & Hr & Htd & Hu).
  destruct p' as [t b r d u]. cbn in Ht, Hr, Htd, Hu. subst.
  exists o, g, pw, pg, evs, b, td. split; [exact Heq | exact Hf].
Qed.

(** C1.  With [-v] set, the program prints the version line and exits with
    code 0; nothing else happens before: no log line, no file is read (so it
    does not matter whether [-configFile] was given), nothing is set up. *)
Theorem version_flag_exits_0 (env : Env) :
  flag_v env = true ->
  run env =
  (Exited 0,
   mkProcess [EPrintf ("version: %s" ++ nl) [str (version_Version env)]; EExit 0]
     [] [] 0%nat 0%nat).
Proof.
  intros Hv. unfold run, main. rewrite Hv. reflexivity.
Qed.

(** C2.  Without [-v] and with an empty [-configFile], the program logs the
    error and exits with code 1; the trace has these two events only: no file
    is read, nothing is built, set up, run or torn down. *)
Theorem missing_configFile_exits_1 (env : Env) :
  flag_v env = false ->
  flag_configFile env = EmptyString ->
  run env =
  (Exited 1,
   mkProcess
     [ ELogPrintln [str "Failed to load config: ";
                    err (errorString "'-configFile' flag required")];
       EExit 1 ]
     [] [] 0%nat 0%nat).
Proof.
  intros Hv Hc. unfold run, main. rewrite Hv, Hc. reflexivity.
Qed.

(** *** The run and the teardown, one step at a time *)

Lemma exits_bind {A B} (m : M A) (k : A -> M B) (p : Process)
  (R : A -> Process -> Prop) (Q : Z -> Process -> Prop) :
  returns m p R -> (forall a p', R a p' -> exits (k a) p' Q) -> exits (bind m k) p Q.
Proof.
  intros (a & p' & Hm & HR) Hk.
  destruct (Hk a p' HR) as (c & p'' & Hc & HQ).
  exists c, p''. split; [| exact HQ].
  unfold bind. rewrite Hm. exact Hc.
Qed.

Lemma emit_trace (e : Event) (p : Process) :
  returns (emit e) p (fun _ p' => trace p' = (trace p ++ [e])%list).
Proof. exists tt. eexists. split; reflexivity. Qed.

Lemma write_trace (w : Writer) (text : string) (p : Process) :
  returns (write w text) p (fun _ p' => trace p' = trace p).
Proof.
  exists tt. eexists. split; [reflexivity |]. destruct w; reflexivity.
Qed.

Lemma runnerWrites_trace (r : CmdRunner) (o : RunOutcome) (p : Process) :
  returns (runnerWrites r o) p (fun _ p' => trace p' = trace p).
Proof.
  unfold returns, runnerWrites.
  destruct (nth_error (runners p) r) as [[out er] |].
  - eapply returns_bind; [apply write_trace |].
    intros [] p1 H1. cbv beta in H1. rewrite <- H1. apply write_trace.
  - exists tt, p. split; reflexivity.
Qed.

(** The shape of [RunInSequence], [orc_Setup] and [orc_TearDown]. *)
Lemma runs_trace (e0 : Event) (r : CmdRunner) (o : RunOutcome) (p : Process) :
  returns (bind (emit e0) (fun _ => bind (runnerWrites r o) (fun _ => ret (failure o)))) p
    (fun e p' => e = failure o /\ trace p' = (trace p ++ [e0])%list).
Proof.
  eapply returns_bind; [apply emit_trace |]. intros [] p1 H1. cbv beta in H1.
  eapply returns_bind; [apply runnerWrites_trace |]. intros [] p2 H2. cbv beta in H2.
  apply returns_ret. split; [reflexivity | now rewrite H2, H1].
Qed.

Lemma logBufferedRunnerFailure_trace (logger : Logger) (whatFailed : string) (e : error)
  (outBuf errBuf : nat) (p : Process) :
  returns (logBufferedRunnerFailure logger whatFailed e outBuf errBuf) p
    (fun _ p' =>
       exists out er : string,
         trace p' =
         (trace p ++ [ELogPrintf failureFormat [str whatFailed; err e; str out; str er]])%list).
Proof.
  exists tt. eexists. split; [reflexivity |].
  cbv [trace]. eexists _, _. reflexivity.
Qed.

Lemma failure_logged (logger : Logger) (whatFailed : string) (e : option error)
  (outBuf errBuf : nat) (p : Process) :
  returns
    (match e with
     | Some e => logBufferedRunnerFailure logger whatFailed e outBuf errBuf
     | None => ret tt
     end) p
    (fun _ p' => exists l : list Event,
                   trace p' = (trace p ++ l)%list /\ logsFailure whatFailed e l).
Proof.
  destruct e as [e |].
  - destruct (logBufferedRunnerFailure_trace logger whatFailed e outBuf errBuf p)
      as ([] & p' & Heq & out & er & Ht).
    exists tt, p'. split; [exact Heq |].
    eexists. split; [exact Ht |]. exists out, er. reflexivity.
  - exists tt, p. split; [reflexivity |].
    exists []. split; [now rewrite app_nil_r | reflexivity].
Qed.

Lemma tearDown_trace (env : Env) (o : Orchestrator) (g : CfCmdGenerator) (logger : Logger)
  (pw : CfWorkflow) (pg : CfCmdGenerator) (r : CmdRunner) (outBuf errBuf : nat)
  (p : Process) :
  returns (tearDown env o g logger pw pg r outBuf errBuf) p
    (fun _ p' =>
       exists l1 l2 : list Event,
         trace p' =
         (trace p ++ [EOrcTearDown r g] ++ l1 ++ [ERunInSequence r (TearDown pw pg)] ++ l2)%list /\
         logsFailure "main teardown" (failure (orcTearDown env)) l1 /\
         logsFailure "push workflow teardown" (failure (pushTearDown env)) l2).
Proof.
  unfold tearDown, orc_TearDown, RunInSequence.
  eapply returns_bind; [apply runs_trace |]. intros e p1 (-> & H1).
  eapply returns_bind; [apply failure_logged |]. intros [] p2 (l1 & H2 & Hl1).
  eapply returns_bind; [apply runs_trace |]. intros e p3 (-> & H3).
  destruct (failure_logged logger "push workflow teardown" (failure (pushTearDown env))
              outBuf errBuf p3) as ([] & p4 & Heq & l2 & H4 & Hl2).
  exists tt, p4. split; [exact Heq |].
  exists l1, l2. split; [| split; assumption].
  rewrite H4, H3, H2, H1, <- !app_assoc. reflexivity.
Qed.

Lemma orc_Run_trace (env : Env) (o : Orchestrator) (pm : bool) (p : Process) :
  returns (orc_Run env o pm) p
    (fun a p' => a = orcRun env pm /\ trace p' = (trace p ++ [EOrcRun pm])%list).
Proof.
  unfold orc_Run.
  eapply returns_bind; [apply emit_trace |]. intros [] p1 H1.
  apply returns_ret. split; [reflexivity | exact H1].
Qed.

(** main.go:140-158 exits with the code of [orc.Run], after both teardown
    steps. *)
Lemma runAndTearDown_exits (env : Env) (logger : Logger) (s : Prepared) (p : Process) :
  exits (runAndTearDown env logger s) p
    (fun code final =>
       code = fst (orcRun env (performMeasurements s)) /\
       exists l1 l2 : list Event,
         trace final =
           (trace p
            ++ [EOrcRun (performMeasurements s)]
            ++ logsFailedRun (snd (orcRun env (performMeasurements s)))
            ++ [ELogPrintln [str "Tearing down..."];
                EOrcTearDown (bufferedRunner s) (orcCmdGenerator s)]
            ++ l1
            ++ [ERunInSequence (bufferedRunner s)
                  (TearDown (pushWorkflow s) (pushCmdGenerator s))]
            ++ l2
            ++ [ELogPrintln [str "Finished tearing down"];
                EExit (fst (orcRun env (performMeasurements s)))])%list /\
         logsFailure "main teardown" (failure (orcTearDown env)) l1 /\
         logsFailure "push workflow teardown" (failure (pushTearDown env)) l2).
Proof.
  unfold runAndTearDown.
  eapply exits_bind; [apply orc_Run_trace |]. intros a p1 (-> & H1).
  destruct (orcRun env (performMeasurements s)) as [exitCode e]. cbv beta iota.
  eapply exits_bind with (R := fun _ p' => trace p' = (trace p1 ++ logsFailedRun e)%list).
  { destruct e as [e |]; [apply emit_trace |].
    apply returns_ret. cbn. now rewrite app_nil_r. }
  intros [] p2 H2.
  eapply exits_bind; [apply emit_trace |]. intros [] p3 H3. cbv beta in H3.
  eapply exits_bind; [apply tearDown_trace |]. intros [] p4 (l1 & l2 & H4 & Hl1 & Hl2).
  eapply exits_bind; [apply emit_trace |]. intros [] p5 H5. cbv beta in H5.
  eexists. eexists. split; [reflexivity |].
  split; [reflexivity |].
  exists l1, l2. split; [| split; assumption].
  cbn [trace fst snd]. rewrite H5, H4, H3, H2, H1, <- !app_assoc. reflexivity.
Qed.

(** C8.  Once the flags are accepted and the config is loaded, the setup
    phase comes to its end whatever failed in it, [orc.Run] is called once,
    and after it both teardown steps run, the second whether or not the first
    failed; a failed teardown step is logged, and the program exits with the
    code that [orc.Run] returned. *)
Theorem teardown_always_runs (env : Env) (cfg : config.Config) :
  flag_v env = false ->
  flag_configFile env <> EmptyString ->
  config.Load (ioutil_ReadFile env) (flag_configFile env) = inl cfg ->
  exists (s : Prepared) (setup l1 l2 : list Event) (final : Process),
    run env = (Exited (fst (orcRun env (performMeasurements s))), final) /\
    performMeasurements s = measurementsEnabled env /\
    Forall setupEvent setup /\
    trace final =
      (setup
       ++ [EOrcRun (performMeasurements s)]
       ++ logsFailedRun (snd (orcRun env (performMeasurements s)))
       ++ [ELogPrintln [str "Tearing down..."];
           EOrcTearDown (bufferedRunner s) (orcCmdGenerator s)]
       ++ l1
       ++ [ERunInSequence (bufferedRunner s) (TearDown (pushWorkflow s) (pushCmdGenerator s))]
       ++ l2
       ++ [ELogPrintln [str "Finished tearing down"];
           EExit (fst (orcRun env (performMeasurements s)))])%list /\
    logsFailure "main teardown" (failure (orcTearDown env)) l1 /\
    logsFailure "push workflow teardown" (failure (pushTearDown env)) l2.
Proof.
  intros Hv Hc HL.
  destruct (prepare_spec env cfg [EReadFile (flag_configFile env)])
    as (o & g & pw & pg & evs & bufs & td & Hp & Hs).
  set (s := mkPrepared (measurementsEnabled env) o g pw pg 0%nat 0%nat 1%nat) in Hp.
  destruct (runAndTearDown_exits env uptimerLogger s
              (mkProcess ([EReadFile (flag_configFile env)] ++ evs) bufs
                 [ (Buffer 0%nat, Buffer 1%nat); (Buffer 2%nat, Buffer 3%nat);
                   (Buffer 4%nat, Buffer 5%nat); (Buffer 6%nat, Buffer 7%nat);
                   (os_Stdout, os_Stderr) ]
                 td 12%nat))
    as (code & final & Hr & -> & l1 & l2 & Ht & Hl1 & Hl2).
  apply String.eqb_neq in Hc.
  exists s, (EReadFile (flag_configFile env) :: evs), l1, l2, final.
  split; [| split; [reflexivity | split; [constructor; [exact I | exact Hs] |
                                           split; [exact Ht | split; assumption]]]].
  unfold run, main. rewrite Hv, Hc. unfold loadConfig. rewrite HL.
  cbv [bind ret emit start trace buffers runners tempDirs uuids app].
  rewrite Hp. exact Hr.
Qed.

End MainFacts.

(** [performMeasurements] is cleared by a failed build of the main app. *)
Lemma app_build_failure_disables_measurements {W : CfWorkflowMethods} (env : Env) (e : error) :
  buildCmd_Run env "app" = Some e -> measurementsEnabled env = false.
Proof.
  intros H. unfold measurementsEnabled. rewrite H. reflexivity.
Qed.

(** Whether the syslog sink app was built plays no part in it: when every
    step that [measurementsEnabled] names succeeded, measurements are enabled. *)
Lemma sink_build_plays_no_part {W : CfWorkflowMethods} (env : Env) :
  buildCmd_Run env "app" = None ->
  tmpDirsCreated env = true ->
  failure (pushSetup env) = None ->
  failure (sinkSetup env) = None ->
  failure (orcSetup env) = None ->
  measurementsEnabled env = true.
Proof.
  intros H1 H2 H3 H4 H5. unfold measurementsEnabled.
  rewrite H1, H2, H3, H4, H5. reflexivity.
Qed.

Lemma version_flag_exits_0_witness :
  flag_v (invocation EmptyString true allBuilt quiet false) = true /\
  run (invocation EmptyString true allBuilt quiet false) =
  (Exited 0,
   mkProcess [EPrintf ("version: %s" ++ nl) [str "0.0.1"]; EExit 0] [] [] 0%nat 0%nat).
Proof.
  split; [reflexivity |].
  apply (version_flag_exits_0 (invocation EmptyString true allBuilt quiet false)).
  reflexivity.
Defined.

Lemma missing_configFile_exits_1_witness :
  flag_v (invocation EmptyString false allBuilt quiet false) = false /\
  flag_configFile (invocation EmptyString false allBuilt quiet false) = EmptyString /\
  run (invocation EmptyString false allBuilt quiet false) =
  (Exited 1,
   mkProcess
     [ ELogPrintln [str "Failed to load config: ";
                    err (errorString "'-configFile' flag required")];
       EExit 1 ]
     [] [] 0%nat 0%nat).
Proof.
  split; [reflexivity |]. split; [reflexivity |].
  apply (missing_configFile_exits_1 (invocation EmptyString false allBuilt quiet false));
    reflexivity.
Defined.

(** An invocation in which the main app does not build and both teardown
    steps fail: the teardown still runs, and the exit code is that of the run. *)
Lemma teardown_always_runs_witness :
  let env := invocation "config.json" false appBuildFails failing false in
  (flag_v env = false /\
   flag_configFile env <> EmptyString /\
   config.Load (ioutil_ReadFile env) (flag_configFile env) = inl sampleLoaded) /\
  exists (s : Prepared) (setup l1 l2 : list Event) (final : Process),
    run env = (Exited (fst (orcRun env (performMeasurements s))), final) /\
    performMeasurements s = measurementsEnabled env /\
    Forall setupEvent setup /\
    trace final =
      (setup
       ++ [EOrcRun (performMeasurements s)]
       ++ logsFailedRun (snd (orcRun env (performMeasurements s)))
       ++ [ELogPrintln [str "Tearing down..."];
           EOrcTearDown (bufferedRunner s) (orcCmdGenerator s)]
       ++ l1
       ++ [ERunInSequence (bufferedRunner s) (TearDown (pushWorkflow s) (pushCmdGenerator s))]
       ++ l2
       ++ [ELogPrintln [str "Finished tearing down"];
           EExit (fst (orcRun env (performMeasurements s)))])%list /\
    logsFailure "main teardown" (failure (orcTearDown env)) l1 /\
    logsFailure "push workflow teardown" (failure (pushTearDown env)) l2.
Proof.
  intros env.
  assert (Hv : flag_v env = false) by reflexivity.
  assert (Hc : flag_configFile env <> EmptyString) by discriminate.
  assert (HL : config.Load (ioutil_ReadFile env) (flag_configFile env) = inl sampleLoaded)
    by (vm_compute; reflexivity).
  split; [split; [exact Hv | split; [exact Hc | exact HL]] |].
  exact (teardown_always_runs env sampleLoaded Hv Hc HL).
Defined.

(** C9, on the code.  The config loads, every step succeeds except the build
    of the syslog sink app: the failure is logged, [performMeasurements]
    stays true, [orc.Run] is called with true, and the program exits with
    code 0 (the run itself succeeding).  When the main app is the one that
    does not build, [orc.Run] is called with false and the exit code is 1. *)
Theorem sink_build_failure_exits_0 :
  let env := invocation "config.json" false sinkBuildFails quiet false in
  let env' := invocation "config.json" false appBuildFails quiet false in
  buildCmd_Run env "syslogSink" = Some exitStatus1 /\
  measurementsEnabled env = true /\
  fst (run env) = Exited 0 /\
  In (ELogPrintln [str "Failed to build included syslog sink app: "; err exitStatus1])
     (trace (snd (run env))) /\
  In (EOrcRun true) (trace (snd (run env))) /\
  ~ In (EOrcRun false) (trace (snd (run env))) /\
  fst (run env') = Exited 1 /\
  In (EOrcRun false) (trace (snd (run env'))).
Proof.
  intros env env'.
  split; [reflexivity |]. split; [reflexivity |]. split; [vm_compute; reflexivity |].
  split; [vm_compute; repeat (first [left; reflexivity | right]) |].
  split; [vm_compute; repeat (first [left; reflexivity | right]) |].
  split.
  - vm_compute. intros H.
    repeat (destruct H as [H | H]; [discriminate H |]). exact H.
  - split; [vm_compute; reflexivity |].
    vm_compute; repeat (first [left; reflexivity | right]).
Qed.

(** ** An invocation of the AppPushability probe *)

Section ProbeFacts.

Context {W : CfWorkflowMethods}.




End ProbeFacts.

(** ** Loading the configuration *)



Section StructInvariant.

Variables (T : Type) (typeName : string) (fieldNames : list string).
Variable setField : string -> json.Value -> T -> T * option error.
Variable P : T -> Prop.
Hypothesis setField_keeps :
  forall name v cur cur' e, P cur -> setField name v cur = (cur', e) -> P cur'.



End StructInvariant.








(** ** Further properties of package main *)

Lemma append_assoc (a b c : string) : ((a ++ b) ++ c = a ++ (b ++ c))%string.
Proof. induction a as [| x a IH]; cbn; [reflexivity | now rewrite IH]. Qed.

Lemma append_inj_l (a b c : string) : (a ++ b = a ++ c)%string -> b = c.
Proof.
  induction a as [| x a IH]; cbn; intros H; [exact H |].
  injection H as H. now apply IH.
Qed.

Lemma nth_setNth_same {A} (i : nat) (x : A) (l : list A) :
  nth i (json.setNth i x l) x = x.
Proof.
  revert i. induction l as [| h t IH]; intros [| i]; cbn; try reflexivity. apply IH.
Qed.

Lemma nth_setNth_other {A} (i j : nat) (x d : A) (l : list A) :
  i <> j -> nth j (json.setNth i x l) d = nth j l d.
Proof.
  revert i j. induction l as [| h t IH]; intros [| i] [| j] H; cbn; try reflexivity.
  - now contradiction H.
  - apply IH. intros E. apply H. now f_equal.
Qed.

Lemma nth_error_app_offset {A} (l l' : list A) (k : nat) :
  nth_error (l ++ l') (List.length l + k) = nth_error l' k.
Proof. induction l as [| h t IH]; cbn; [reflexivity | exact IH]. Qed.

Lemma nth_error_app_here {A} (l : list A) (x : A) (l' : list A) :
  nth_error (l ++ x :: l') (List.length l) = Some x.
Proof. induction l as [| h t IH]; cbn; [reflexivity | exact IH]. Qed.

Lemma firstn_length_app {A} (l l' : list A) : firstn (List.length l) (l ++ l') = l.
Proof. induction l as [| h t IH]; cbn; [now destruct l' | now rewrite IH]. Qed.

Ltac run_step := cbv beta iota zeta delta [trace buffers runners tempDirs uuids].

Section CoverageFacts.

Context {W : CfWorkflowMethods}.

(** X1.  When the flags are accepted but [config.Load] fails (the file cannot
    be read, is not JSON, or does not fit [Config]), the whole run is: the
    attempt to read the file, one log line that shows the error of [Load],
    and [os.Exit(1)]; nothing is built, set up, run or torn down. *)
Theorem load_failure_exits_1 (env : Env) (e : error) :
  flag_v env = false ->
  flag_configFile env <> EmptyString ->
  config.Load (ioutil_ReadFile env) (flag_configFile env) = inr e ->
  run env =
  (Exited 1,
   mkProcess
     [ EReadFile (flag_configFile env);
       ELogPrintln [str "Failed to load config: "; err e];
       EExit 1 ]
     [] [] 0%nat 0%nat).
Proof.
  intros Hv Hc HL. apply String.eqb_neq in Hc.
  unfold run, main. rewrite Hv, Hc. unfold loadConfig. rewrite HL. reflexivity.
Qed.

(** X2.  When the five calls of [ioutil.TempDir] succeed, [createTmpDirs]
    returns the five names in the order of the calls (orchestrator, recent
    logs, streaming logs, push, sink) and no error, after exactly five calls. *)
Theorem createTmpDirs_all_created (env : Env) (p : Process) (d0 d1 d2 d3 d4 : string) :
  ioutil_TempDir env (tempDirs p) = inl d0 ->
  ioutil_TempDir env (1 + tempDirs p) = inl d1 ->
  ioutil_TempDir env (2 + tempDirs p) = inl d2 ->
  ioutil_TempDir env (3 + tempDirs p) = inl d3 ->
  ioutil_TempDir env (4 + tempDirs p) = inl d4 ->
  createTmpDirs env p =
  (Returned (d0, d1, d2, d3, d4, None),
   mkProcess (trace p ++ repeat ETempDir 5) (buffers p) (runners p)
     (5 + tempDirs p) (uuids p)).
Proof.
  destruct p as [t b r d u]. cbn [tempDirs trace buffers runners uuids Nat.add].
  intros H0 H1 H2 H3 H4.
  unfold createTmpDirs, TempDir, bind, ret. run_step.
  rewrite H0. run_step. rewrite H1. run_step. rewrite H2. run_step.
  rewrite H3. run_step. rewrite H4. run_step.
  rewrite <- !app_assoc. reflexivity.
Qed.

(** X3.  [createTmpDirs] stops at the first call of [ioutil.TempDir] that
    fails: if call number [k] (counting from 0) is the first to fail, with
    [e], exactly [k+1] calls are made and the result is five empty names and
    [e]; the names of the directories made before are not returned. *)
Theorem createTmpDirs_stops_at_first_failure (env : Env) (p : Process) (k : nat) (e : error) :
  (k < 5)%nat ->
  (forall j, (j < k)%nat -> exists d, ioutil_TempDir env (j + tempDirs p) = inl d) ->
  ioutil_TempDir env (k + tempDirs p) = inr e ->
  createTmpDirs env p =
  (Returned (EmptyString, EmptyString, EmptyString, EmptyString, EmptyString, Some e),
   mkProcess (trace p ++ repeat ETempDir (S k)) (buffers p) (runners p)
     (S k + tempDirs p) (uuids p)).
Proof.
  destruct p as [t b r d u]. cbn [tempDirs trace buffers runners uuids].
  intros Hk Hok He.
  unfold createTmpDirs, TempDir, bind, ret. run_step.
  destruct k as [| k]; [cbn in He; rewrite He; reflexivity |].
  destruct (Hok 0%nat ltac:(lia)) as [d0 E0]. cbn in E0. rewrite E0. run_step.
  destruct k as [| k]; [cbn in He; rewrite He; run_step; now rewrite <- !app_assoc |].
  destruct (Hok 1%nat ltac:(lia)) as [d1 E1]. cbn in E1. rewrite E1. run_step.
  destruct k as [| k]; [cbn in He; rewrite He; run_step; now rewrite <- !app_assoc |].
  destruct (Hok 2%nat ltac:(lia)) as [d2 E2]. cbn in E2. rewrite E2. run_step.
  destruct k as [| k]; [cbn in He; rewrite He; run_step; now rewrite <- !app_assoc |].
  destruct (Hok 3%nat ltac:(lia)) as [d3 E3]. cbn in E3. rewrite E3. run_step.
  destruct k as [| k]; [cbn in He; rewrite He; run_step; now rewrite <- !app_assoc |].
  lia.
Qed.

(** [createWorkflow] draws four UUIDs: for the org, the app, the space and
    the quota, in this order; it changes nothing else. *)
Lemma createWorkflow_eq (env : Env) (cfc : option config.Cf) (appPath appCommand : string)
  (p : Process) :
  createWorkflow env cfc appPath appCommand p =
  (Returned (workflowAt env cfc (uuids p) appPath appCommand,
             "uptimer-org-" ++ uuid_NewV4 env (uuids p),
             "uptimer-app-" ++ uuid_NewV4 env (S (uuids p)))%string,
   mkProcess (trace p) (buffers p) (runners p) (tempDirs p) (4 + uuids p)).
Proof. destruct p as [t b r d u]. reflexivity. Qed.

(** X4.  [createWorkflow] draws four UUIDs and changes nothing else: the
    first is for the org, the second for the app, the third for the space
    and the fourth for the quota; the workflow is made from these four
    names, the config, the app path and the app command, and the org and
    app names are returned beside it.  As long as the UUID source never
    repeats, the four UUIDs of a workflow are pairwise different, and two
    workflows made at different times share no org, space, quota or app
    name. *)
Theorem createWorkflow_names_never_shared (env : Env) (cfc1 cfc2 : option config.Cf)
  (appPath1 appCommand1 appPath2 appCommand2 : string) (p q : Process) :
  (forall i j, uuid_NewV4 env i = uuid_NewV4 env j -> i = j) ->
  (4 + uuids p <= uuids q)%nat ->
  exists (w1 w2 : CfWorkflow),
    createWorkflow env cfc1 appPath1 appCommand1 p =
      (Returned (w1, wf_org w1, wf_appName w1),
       mkProcess (trace p) (buffers p) (runners p) (tempDirs p) (4 + uuids p)) /\
    createWorkflow env cfc2 appPath2 appCommand2 q =
      (Returned (w2, wf_org w2, wf_appName w2),
       mkProcess (trace q) (buffers q) (runners q) (tempDirs q) (4 + uuids q)) /\
    w1 = cfWorkflow_New cfc1
           ("uptimer-org-" ++ uuid_NewV4 env (uuids p))
           ("uptimer-space-" ++ uuid_NewV4 env (2 + uuids p))
           ("uptimer-quota-" ++ uuid_NewV4 env (3 + uuids p))
           ("uptimer-app-" ++ uuid_NewV4 env (1 + uuids p))
           appPath1 appCommand1 /\
    w2 = cfWorkflow_New cfc2
           ("uptimer-org-" ++ uuid_NewV4 env (uuids q))
           ("uptimer-space-" ++ uuid_NewV4 env (2 + uuids q))
           ("uptimer-quota-" ++ uuid_NewV4 env (3 + uuids q))
           ("uptimer-app-" ++ uuid_NewV4 env (1 + uuids q))
           appPath2 appCommand2 /\
    NoDup [ uuid_NewV4 env (uuids p); uuid_NewV4 env (1 + uuids p);
            uuid_NewV4 env (2 + uuids p); uuid_NewV4 env (3 + uuids p) ] /\
    wf_org w1 <> wf_org w2 /\ wf_space w1 <> wf_space w2 /\
    wf_quota w1 <> wf_quota w2 /\ wf_appName w1 <> wf_appName w2.
Proof.
  intros Hinj Hpq. rewrite !createWorkflow_eq.
  exists (workflowAt env cfc1 (uuids p) appPath1 appCommand1),
    (workflowAt env cfc2 (uuids q) appPath2 appCommand2).
  do 4 (split; [reflexivity |]).
  split.
  { repeat constructor; cbn; intros H;
      repeat (destruct H as [H | H]; [apply Hinj in H; lia |]); exact H. }
  cbn [workflowAt wf_org wf_space wf_quota wf_appName].
  repeat split; intros E; apply append_inj_l, Hinj in E; lia.
Qed.

(** X5.  [logBufferedRunnerFailure] logs one line, which shows what failed,
    the error and the contents of the two buffers at that moment, and then
    empties both buffers; it touches no other buffer, no runner and no
    counter. *)
Theorem logBufferedRunnerFailure_logs_then_resets (logger : Logger) (whatFailed : string)
  (e : error) (outBuf errBuf : nat) (p : Process) :
  exists p' : Process,
    logBufferedRunnerFailure logger whatFailed e outBuf errBuf p = (Returned tt, p') /\
    trace p' =
      (trace p ++
       [ELogPrintf failureFormat
          [str whatFailed; err e;
           str (nth outBuf (buffers p) EmptyString);
           str (nth errBuf (buffers p) EmptyString)]])%list /\
    nth outBuf (buffers p') EmptyString = EmptyString /\
    nth errBuf (buffers p') EmptyString = EmptyString /\
    (forall b, b <> outBuf -> b <> errBuf ->
               nth b (buffers p') EmptyString = nth b (buffers p) EmptyString) /\
    List.length (buffers p') = List.length (buffers p) /\
    runners p' = runners p /\ tempDirs p' = tempDirs p /\ uuids p' = uuids p.
Proof.
  destruct p as [t b r d u]. eexists. split; [reflexivity |].
  cbn [trace buffers runners tempDirs uuids].
  split; [reflexivity |].
  split.
  { destruct (Nat.eq_dec errBuf outBuf) as [-> | Hne].
    - apply nth_setNth_same.
    - rewrite nth_setNth_other by exact Hne. apply nth_setNth_same. }
  split; [apply nth_setNth_same |].
  split.
  { intros b' H1 H2. rewrite !nth_setNth_other by congruence. reflexivity. }
  split; [now rewrite !length_setNth |].
  repeat split.
Qed.

(** X6.  [createMeasurements] returns the HTTPAvailability, AppPushability,
    RecentLogs and StreamingLogs measurements, and gives each of the three
    command-running probes a runner of its own that did not exist before,
    together with the two buffers that this very runner writes to; the
    buffers are new and empty.  Three runners and six buffers are made, no
    two probes share a runner or a buffer, and the HTTPAvailability probe
    has neither.  Nothing is logged or run, and what existed before is kept. *)
Theorem measurements_own_runners_and_buffers (lg : Logger) (ow pw : CfWorkflow)
  (rg sg pg : CfCmdGenerator) (af : config.AllowedFailures) (p : Process) :
  let ms := measurementsFrom lg ow pw rg sg pg af p in
  let p' := snd (createMeasurements lg ow pw rg sg pg af p) in
  map kindOf ms =
    [Some HTTPAvailability; Some AppPushability; Some RecentLogs_; Some StreamingLogs_] /\
  Forall (fun m =>
            match runnerOf m with
            | Some r =>
                exists o e : nat,
                  buffersOf m = Some (o, e) /\
                  nth_error (runners p') r = Some (Buffer o, Buffer e) /\
                  (List.length (runners p) <= r)%nat /\
                  (List.length (buffers p) <= o)%nat /\
                  (List.length (buffers p) <= e)%nat /\
                  nth_error (buffers p') o = Some EmptyString /\
                  nth_error (buffers p') e = Some EmptyString
            | None => kindOf m = Some HTTPAvailability
            end) ms /\
  List.length (runnersOf ms) = 3%nat /\
  List.length (allBuffersOf ms) = 6%nat /\
  NoDup (runnersOf ms) /\
  NoDup (allBuffersOf ms) /\
  List.length (runners p') = (List.length (runners p) + 3)%nat /\
  List.length (buffers p') = (List.length (buffers p) + 6)%nat /\
  trace p' = trace p /\
  firstn (List.length (buffers p)) (buffers p') = buffers p /\
  firstn (List.length (runners p)) (runners p') = runners p.
Proof.
  intros ms p'. subst ms p'.
  rewrite measurementsFrom_eq, createMeasurements_eq.
  destruct p as [t b r d u].
  cbv beta iota zeta delta [fst snd trace buffers runners].
  assert (probe : forall k j : nat, (k < 3)%nat -> (j = 2 * k)%nat ->
            exists o e : nat,
              Some ((List.length b + j)%nat, (List.length b + S j)%nat) = Some (o, e) /\
              nth_error
                (r ++ [ (Buffer (List.length b), Buffer (List.length b + 1)%nat);
                        (Buffer (List.length b + 2)%nat, Buffer (List.length b + 3)%nat);
                        (Buffer (List.length b + 4)%nat, Buffer (List.length b + 5)%nat) ])
                (List.length r + k) = Some (Buffer o, Buffer e) /\
              (List.length r <= List.length r + k)%nat /\
              (List.length b <= o)%nat /\ (List.length b <= e)%nat /\
              nth_error (b ++ repeat EmptyString 6) o = Some EmptyString /\
              nth_error (b ++ repeat EmptyString 6) e = Some EmptyString).
  { intros k j Hk ->. eexists _, _. split; [reflexivity |].
    rewrite !nth_error_app_offset.
    destruct k as [| [| [| k]]]; [| | | lia];
      (split; [cbn; now rewrite ?Nat.add_0_r |]); repeat split; try reflexivity; lia. }
  split; [reflexivity |].
  split; [| split; [reflexivity | split; [reflexivity |
    split; [| split; [| split; [now rewrite length_app | split; [now rewrite length_app |
    split; [reflexivity | split; apply firstn_length_app]]]]]]]].
  - apply Forall_cons; [reflexivity |].
    apply Forall_cons; [exact (probe 2%nat 4%nat ltac:(lia) eq_refl) |].
    apply Forall_cons.
    { cbv beta iota delta [runnerOf buffersOf baseOf].
      eexists _, _. split; [reflexivity |].
      split; [apply (nth_error_app_here r) |].
      split; [lia |]. split; [lia |]. split; [lia |].
      split; [apply (nth_error_app_here b) | now rewrite nth_error_app_offset]. }
    apply Forall_cons; [exact (probe 1%nat 2%nat ltac:(lia) eq_refl) |].
    apply Forall_nil.
  - cbn. repeat constructor; cbn; intros H; lia.
  - cbn. repeat constructor; cbn; intros H; lia.
Qed.

(** X7.  The four periodic measurements come in the order HTTPAvailability,
    AppPushability, RecentLogs, StreamingLogs, with the periods 1 s, 60 s,
    10 s and 30 s (in nanoseconds), and each with the allowed-failure count
    that the config gives for its own kind of probe. *)
Theorem measurements_schedule (lg : Logger) (ow pw : CfWorkflow)
  (rg sg pg : CfCmdGenerator) (af : config.AllowedFailures) (p : Process) :
  map (fun m => (kindOf m, freqOf m, allowedFailuresOf m))
    (measurementsFrom lg ow pw rg sg pg af p) =
  [ (Some HTTPAvailability, Some 1000000000, Some (config.HttpAvailability af));
    (Some AppPushability, Some 60000000000, Some (config.AppPushability af));
    (Some RecentLogs_, Some 10000000000, Some (config.RecentLogs af));
    (Some StreamingLogs_, Some 30000000000, Some (config.StreamingLogs af)) ].
Proof. rewrite measurementsFrom_eq. reflexivity. Qed.

End CoverageFacts.

(** X8.  Text that follows in the captured output never hides the expired
    session: once [authFailedRetryFunc] answers true for the captured
    [stdOut] and [stdErr], it still does after more text was appended to
    either (the buffers of a runner only grow until they are reset). *)
Theorem authFailedRetryFunc_survives_appending (stdOut stdErr more1 more2 : string) :
  authFailedRetryFunc stdOut stdErr = true ->
  authFailedRetryFunc (stdOut ++ more1) (stdErr ++ more2) = true.
Proof.
  unfold authFailedRetryFunc. rewrite !orb_true_iff, !Contains_occurs.
  intros [(pre & post & ->) | (pre & post & ->)]; [left | right].
  - exists pre, (post ++ more1)%string. now rewrite !append_assoc.
  - exists pre, (post ++ more2)%string. now rewrite !append_assoc.
Qed.

(** ** Further properties of package config *)

Section StructErrors.

Variables (T : Type) (fieldNames : list string).
Variable setField : string -> json.Value -> T -> T * option error.

(** Members whose keys select no field leave the struct as it is. *)
Lemma objectLoop_skips (ms : list (string * json.Value)) (cur : T) (err : option error) :
  Forall (fun kv => json.findField fieldNames (fst kv) = None) ms ->
  json.objectLoop fieldNames setField ms cur err = (cur, err).
Proof.
  induction 1 as [| [key v] ms Hk _ IH]; cbn; [reflexivity |].
  cbn in Hk. rewrite Hk. exact IH.
Qed.

(** An error, once saved, is the error of the whole object. *)
Lemma objectLoop_keeps_error (ms : list (string * json.Value)) (cur : T) (e : error) :
  snd (json.objectLoop fieldNames setField ms cur (Some e)) = Some e.
Proof.
  revert cur. induction ms as [| [key v] ms IH]; intros cur; cbn; [reflexivity |].
  destruct (json.findField fieldNames key) as [name |]; [| apply IH].
  destruct (setField name v cur) as [cur' e']. apply IH.
Qed.

(** A member that its field does not take makes the whole object fail. *)
Lemma objectLoop_reports (ms : list (string * json.Value)) (key name : string)
  (v : json.Value) :
  In (key, v) ms ->
  json.findField fieldNames key = Some name ->
  (forall cur, snd (setField name v cur) <> None) ->
  forall cur err, snd (json.objectLoop fieldNames setField ms cur err) <> None.
Proof.
  intros Hin Hf Hbad. induction ms as [| [key' v'] ms IH]; [contradiction Hin |].
  intros cur err. cbn. destruct Hin as [E | Hin].
  - injection E as -> ->. rewrite Hf.
    specialize (Hbad cur). destruct (setField name v cur) as [cur' e']. cbn in Hbad.
    destruct e' as [e' |]; [| now contradiction Hbad].
    destruct err as [e0 |]; cbn; rewrite objectLoop_keeps_error; discriminate.
  - destruct (json.findField fieldNames key') as [name' |]; [| now apply IH].
    destruct (setField name' v' cur) as [cur' e']. now apply IH.
Qed.

End StructErrors.

Lemma decodeInt_rejects (v : json.Value) (cur : Z) :
  notAnInt v = true -> snd (json.decodeInt v cur) <> None.
Proof.
  destruct v; cbn; try discriminate.
  destruct (json.ParseInt lit); [discriminate | intros _; discriminate].
Qed.

Lemma findField_allowedFailures (key name : string) :
  json.findField config.allowedFailuresFields key = Some name ->
  In name config.allowedFailuresFields.
Proof.
  unfold json.findField.
  destruct (find (String.eqb key) config.allowedFailuresFields) as [n |] eqn:E.
  - intros H. injection H as <-. now apply find_some in E.
  - intros H. now apply find_some in H.
Qed.

Lemma setAllowedFailuresField_rejects (name : string) (v : json.Value)
  (a : config.AllowedFailures) :
  In name config.allowedFailuresFields -> notAnInt v = true ->
  snd (config.setAllowedFailuresField name v a) <> None.
Proof.
  intros Hin Hv. unfold config.setAllowedFailuresField.
  destruct Hin as [<- | [<- | [<- | [<- | []]]]]; cbn [String.eqb Ascii.eqb Bool.eqb];
    match goal with
    | |- context [json.decodeInt v ?c] =>
        pose proof (decodeInt_rejects v c Hv) as H;
        destruct (json.decodeInt v c) as [x e]; exact H
    end.
Qed.

(** X9.  A file whose JSON names no field of [Config], that is [null] or an
    object none of whose keys is (under the decoder's case folding) [while],
    [cf] or [allowed_failures], is accepted: [Load] returns the zero [Config],
    with no While command, no [CF] and all four counts 0. *)
Theorem Load_accepts_files_naming_no_field (ReadFile : string -> string + error)
  (filename data : string) (v : json.Value) :
  ReadFile filename = inl data ->
  json.parse data = Some v ->
  namesNoField v ->
  config.Load ReadFile filename = inl config.zeroConfig.
Proof.
  intros HR HP Hn. unfold config.Load, config.Unmarshal. rewrite HR, HP.
  unfold config.decodeConfig, json.decodeStruct.
  destruct v; cbn in Hn; try contradiction; [reflexivity |].
  now rewrite objectLoop_skips.
Qed.

(** X10.  A file whose JSON is a boolean, a number, a string or an array is
    rejected: [Load] returns the type error that names the kind of the value
    and the type [config.Config], and no [Config]. *)
Theorem Load_rejects_non_object (ReadFile : string -> string + error)
  (filename data : string) (v : json.Value) :
  ReadFile filename = inl data ->
  json.parse data = Some v ->
  notAnObject v = true ->
  config.Load ReadFile filename =
  inr (UnmarshalTypeError (json.kindName v) "config.Config").
Proof.
  intros HR HP Hn. unfold config.Load, config.Unmarshal. rewrite HR, HP.
  destruct v; cbn in Hn; try discriminate; reflexivity.
Qed.

(** X11.  An allowed-failure count that is not an integer makes [Load] fail:
    if the object under [allowed_failures] gives one of the four counts as a
    string, a boolean, an array, an object, or a number that is not a 64-bit
    integer literal (a fraction, an exponent, a value out of range), [Load]
    returns an error and no [Config], whatever else the file holds. *)
Theorem Load_rejects_mistyped_count (ReadFile : string -> string + error)
  (filename data : string) (ms counts : list (string * json.Value))
  (key key' : string) (v : json.Value) :
  ReadFile filename = inl data ->
  json.parse data = Some (json.Object ms) ->
  In (key, json.Object counts) ms ->
  json.findField config.configFields key = Some "allowed_failures" ->
  In (key', v) counts ->
  json.findField config.allowedFailuresFields key' <> None ->
  notAnInt v = true ->
  exists e : error, config.Load ReadFile filename = inr e.
Proof.
  intros HR HP Hin Hf Hin' Hf' Hv.
  destruct (json.findField config.allowedFailuresFields key') as [name |] eqn:E;
    [clear Hf' | now contradiction Hf'].
  assert (Hcounts : forall cur,
            snd (config.setConfigField "allowed_failures" (json.Object counts) cur) <> None).
  { intros cur. unfold config.setConfigField. cbn [String.eqb Ascii.eqb Bool.eqb].
    unfold config.decodeAllowedFailures, json.decodeStruct.
    pose proof (objectLoop_reports _ config.allowedFailuresFields
                  config.setAllowedFailuresField counts key' name v Hin' E
                  (fun a => setAllowedFailuresField_rejects name v a
                              (findField_allowedFailures key' name E) Hv)
                  (config.AllowedFailures_ cur) None) as H.
    destruct (json.objectLoop config.allowedFailuresFields config.setAllowedFailuresField
                counts (config.AllowedFailures_ cur) None) as [x e].
    exact H. }
  pose proof (objectLoop_reports _ config.configFields config.setConfigField ms key
                "allowed_failures" (json.Object counts) Hin Hf Hcounts
                config.zeroConfig None) as H.
  unfold config.Load, config.Unmarshal. rewrite HR, HP.
  unfold config.decodeConfig, json.decodeStruct.
  destruct (json.objectLoop config.configFields config.setConfigField ms
              config.zeroConfig None) as [c [e |]]; [now exists e | now contradiction H].
Qed.

(** ** The whole lifecycle of a run *)

Lemma inOrder_app_r {A} (ms l l' : list A) : inOrder ms l -> inOrder ms (l ++ l').
Proof. induction 1; cbn; now constructor. Qed.

Lemma inOrder_app_l {A} (ms l l' : list A) : inOrder ms l' -> inOrder ms (l ++ l').
Proof. intros H. induction l as [| x l IH]; cbn; [exact H | now constructor]. Qed.

Lemma inOrder_app {A} (ms ms' l l' : list A) :
  inOrder ms l -> inOrder ms' l' -> inOrder (ms ++ ms') (l ++ l').
Proof.
  intros H H'. induction H; cbn.
  - now apply inOrder_app_l.
  - now constructor.
  - now constructor.
Qed.

Lemma inOrder_refl {A} (l : list A) : inOrder l l.
Proof. induction l; now constructor. Qed.

Lemma inOrder_tail {A} (x : A) (ms l : list A) : inOrder (x :: ms) l -> inOrder ms l.
Proof.
  intros H. remember (x :: ms) as ms' eqn:E. induction H as [l | y ms0 l H IH | y ms0 l H IH].
  - discriminate E.
  - injection E as -> ->. now constructor.
  - constructor. now apply IH.
Qed.

Section LifecycleFacts.

Context {W : CfWorkflowMethods}.

(** A step has one result only. *)
Lemma returns_also {A} (m : M A) (p p' : Process) (a : A) (Q : A -> Process -> Prop) :
  returns m p Q -> m p = (Returned a, p') -> Q a p'.
Proof.
  intros (a' & p'' & E & H) E'. rewrite E in E'. injection E' as <- <-. exact H.
Qed.

Lemma returns_conj {A} (m : M A) (p : Process) (Q1 Q2 : A -> Process -> Prop) :
  returns m p Q1 -> returns m p Q2 -> returns m p (fun a p' => Q1 a p' /\ Q2 a p').
Proof.
  intros (a & p' & E & H1) H2. exists a, p'. split; [exact E |].
  split; [exact H1 | exact (returns_also m p p' a Q2 H2 E)].
Qed.

Section Reached.

Variables (tr ms : list Event) (nb : nat) (rs : list (Writer * Writer)) (td nu : nat).

Lemma reached_start (bufs : list string) :
  List.length bufs = nb -> reached tr [] nb rs td nu (mkProcess tr bufs rs td nu).
Proof.
  intros Hb. split; [| now repeat split].
  exists []. cbn. rewrite app_nil_r. repeat split; constructor.
Qed.

(** The state seen from its own trace. *)
Lemma reached_anchor (p : Process) :
  reached tr ms nb rs td nu p -> setupState (trace p) nb rs td nu p.
Proof.
  intros (_ & H). split; [| exact H].
  exists []. now rewrite app_nil_r.
Qed.

(** Setup events that are no milestones. *)
Lemma reached_step (nb' : nat) (rs' : list (Writer * Writer)) (td' nu' : nat)
  (p p' : Process) :
  reached tr ms nb rs td nu p -> setupState (trace p) nb' rs' td' nu' p' ->
  reached tr ms nb' rs' td' nu' p'.
Proof.
  intros ((evs & Ht & Hf & Ho) & _) ((evs' & Ht' & Hf') & H'). split; [| exact H'].
  exists (evs ++ evs')%list. rewrite Ht', Ht, app_assoc. split; [reflexivity |].
  split; [apply Forall_app; now split | now apply inOrder_app_r].
Qed.

(** A milestone. *)
Lemma reached_milestone (e : Event) (p p' : Process) :
  setupEvent e ->
  reached tr ms nb rs td nu p ->
  trace p' = (trace p ++ [e])%list -> setupState (trace p) nb rs td nu p' ->
  reached tr (ms ++ [e]) nb rs td nu p'.
Proof.
  intros He ((evs & Ht & Hf & Ho) & _) Ht' (_ & H'). split; [| exact H'].
  exists (evs ++ [e])%list. rewrite Ht', Ht, app_assoc. split; [reflexivity |].
  split; [apply Forall_app; split; [exact Hf | now constructor] |].
  apply inOrder_app; [exact Ho | apply inOrder_refl].
Qed.

End Reached.

(** *** The steps of the setup phase, with what they return *)

Section ExactSteps.

Variables (tr : list Event) (nb : nat) (rs : list (Writer * Writer)) (td nu : nat).

Lemma compileIncludedApp_exact (env : Env) (appName : string) (p : Process) :
  setupState tr nb rs td nu p ->
  returns (compileIncludedApp env appName) p
    (fun a p' => a = (appPathOf env appName, buildCmd_Run env appName) /\
                 trace p' = (trace p ++ [EBuild (appPathOf env appName)])%list /\
                 setupState tr nb rs td nu p').
Proof.
  intros H.
  assert (E : compileIncludedApp env appName p =
              (Returned (appPathOf env appName, buildCmd_Run env appName),
               mkProcess (trace p ++ [EBuild (appPathOf env appName)]) (buffers p)
                 (runners p) (tempDirs p) (uuids p))) by reflexivity.
  eexists _, _. split; [exact E |]. split; [reflexivity |]. split; [reflexivity |].
  exact (proj2 (returns_also _ _ _ _ _ (compileIncludedApp_keeps tr nb rs td nu env appName p H) E)).
Qed.

Lemma RunInSequence_exact (r : CmdRunner) (cmds : list CmdStartWaiter) (o : RunOutcome)
  (p : Process) :
  setupState tr nb rs td nu p ->
  returns (RunInSequence r cmds o) p
    (fun e p' => e = failure o /\
                 trace p' = (trace p ++ [ERunInSequence r cmds])%list /\
                 setupState tr nb rs td nu p').
Proof.
  intros H.
  destruct (returns_conj _ _ _ _ (runs_trace (ERunInSequence r cmds) r o p)
              (RunInSequence_keeps tr nb rs td nu r cmds o p H))
    as (e & p' & E & (-> & Ht) & (_ & Hs)).
  exists (failure o), p'.
  split; [exact E | split; [reflexivity | split; [exact Ht | exact Hs]]].
Qed.

Lemma orc_Setup_exact (orc : Orchestrator) (r : CmdRunner) (g : CfCmdGenerator)
  (o : RunOutcome) (p : Process) :
  setupState tr nb rs td nu p ->
  returns (orc_Setup orc r g o) p
    (fun e p' => e = failure o /\
                 trace p' = (trace p ++ [EOrcSetup r g])%list /\
                 setupState tr nb rs td nu p').
Proof.
  intros H.
  destruct (returns_conj _ _ _ _ (runs_trace (EOrcSetup r g) r o p)
              (orc_Setup_keeps tr nb rs td nu orc r g o p H))
    as (e & p' & E & (-> & Ht) & (_ & Hs)).
  exists (failure o), p'.
  split; [exact E | split; [reflexivity | split; [exact Ht | exact Hs]]].
Qed.

Lemma createWorkflow_exact (env : Env) (cfc : option config.Cf)
  (appPath appCommand : string) (p : Process) :
  setupState tr nb rs td nu p ->
  returns (createWorkflow env cfc appPath appCommand) p
    (fun a p' => a = (workflowAt env cfc nu appPath appCommand,
                      "uptimer-org-" ++ uuid_NewV4 env nu,
                      "uptimer-app-" ++ uuid_NewV4 env (S nu))%string /\
                 setupState tr nb rs td (4 + nu) p').
Proof.
  intros H. pose proof H as (_ & _ & _ & _ & Hu).
  eexists _, _. split; [apply createWorkflow_eq |]. split; [now rewrite Hu |].
  exact (returns_also _ _ _ _ _
           (createWorkflow_counts tr nb rs td nu env cfc appPath appCommand p H)
           (createWorkflow_eq env cfc appPath appCommand p)).
Qed.

Lemma createMeasurements_exact (lg : Logger) (ow pw : CfWorkflow)
  (rg sg pg : CfCmdGenerator) (af : config.AllowedFailures) (p : Process) :
  setupState tr nb rs td nu p ->
  returns (createMeasurements lg ow pw rg sg pg af) p
    (fun a p' =>
       a = measurementList lg ow pw rg sg pg af (List.length rs) nb /\
       setupState tr (nb + 6)
         (rs ++ [ (Buffer nb, Buffer (nb + 1)%nat);
                  (Buffer (nb + 2)%nat, Buffer (nb + 3)%nat);
                  (Buffer (nb + 4)%nat, Buffer (nb + 5)%nat) ]) td nu p').
Proof.
  intros H. pose proof H as (_ & Hb & Hr & _).
  eexists _, _. split; [apply createMeasurements_eq |].
  split; [now rewrite Hb, Hr |].
  exact (returns_also _ _ _ _ _
           (createMeasurements_counts tr nb rs td nu lg ow pw rg sg pg af p H)
           (createMeasurements_eq lg ow pw rg sg pg af p)).
Qed.

End ExactSteps.

Lemma createTmpDirs_exact (tr : list Event) (nb : nat) (rs : list (Writer * Writer))
  (nu : nat) (env : Env) (p : Process) :
  setupState tr nb rs 0 nu p ->
  returns (createTmpDirs env) p
    (fun a p' =>
       fst a = (tmpDirName env 0, tmpDirName env 1, tmpDirName env 2, tmpDirName env 3,
                tmpDirName env 4) /\
       noError (snd a) = tmpDirsCreated env /\
       exists td, setupState tr nb rs td nu p').
Proof.
  intros H. unfold createTmpDirs, tmpDirName, tmpDirsCreated. cbn [forallb].
  eapply returns_bind; [eapply TempDir_counts, H |]. intros r p1 (-> & H1).
  destruct (ioutil_TempDir env 0) as [d0 | e];
    [| apply returns_ret; split; [reflexivity | split; [reflexivity | eauto]]].
  eapply returns_bind; [eapply TempDir_counts, H1 |]. intros r p2 (-> & H2).
  destruct (ioutil_TempDir env 1) as [d1 | e];
    [| apply returns_ret; split; [reflexivity | split; [reflexivity | eauto]]].
  eapply returns_bind; [eapply TempDir_counts, H2 |]. intros r p3 (-> & H3).
  destruct (ioutil_TempDir env 2) as [d2 | e];
    [| apply returns_ret; split; [reflexivity | split; [reflexivity | eauto]]].
  eapply returns_bind; [eapply TempDir_counts, H3 |]. intros r p4 (-> & H4).
  destruct (ioutil_TempDir env 3) as [d3 | e];
    [| apply returns_ret; split; [reflexivity | split; [reflexivity | eauto]]].
  eapply returns_bind; [eapply TempDir_counts, H4 |]. intros r p5 (-> & H5).
  destruct (ioutil_TempDir env 4) as [d4 | e];
    apply returns_ret; (split; [reflexivity | split; [reflexivity | eauto]]).
Qed.

Ltac next := cbv beta iota zeta.

Ltac plain lem H p' H' :=
  eapply returns_bind;
  [ apply lem, (reached_anchor _ _ _ _ _ _ _ H)
  | intros [] p' H';
    apply (reached_step _ _ _ _ _ _ _ _ _ _ _ _ H) in H'; next ].

(** The setup phase, whatever fails in it: what [main] holds at its end, and
    the steps recorded on the way. *)
Lemma prepare_reaches (env : Env) (cfg : config.Config) (tr : list Event) (p : Process) :
  reached tr [] 0 [] 0 0 p ->
  returns (prepare env uptimerLogger cfg) p
    (fun s p' =>
       s = preparedOf env cfg /\
       exists td : nat,
         reached tr (setupSteps env cfg) 8
           [ (Buffer 0%nat, Buffer 1%nat); (Buffer 2%nat, Buffer 3%nat);
             (Buffer 4%nat, Buffer 5%nat); (Buffer 6%nat, Buffer 7%nat);
             (os_Stdout, os_Stderr) ]
           td 12 p').
Proof.
  intros H0. unfold prepare. next.
  (* main.go:57-66 *)
  plain Println_keeps H0 p1 H1.
  eapply returns_bind;
    [apply compileIncludedApp_exact, (reached_anchor _ _ _ _ _ _ _ H1) |].
  intros [appPath e] p2 (Ea & Ht & Hs). injection Ea as -> ->.
  pose proof (reached_milestone _ _ _ _ _ _ (EBuild _) _ _ I H1 Ht Hs) as H2.
  clear Ht Hs H1 H0. next.
  eapply returns_bind;
    [apply (cleared_when_not_made (trace p2) 0 [] 0 0
              (fun e => [str "Failed to build included app: "; err e])),
       (reached_anchor _ _ _ _ _ _ _ H2) |].
  intros pm p3 (-> & H3). apply (reached_step _ _ _ _ _ _ _ _ _ _ _ _ H2) in H3.
  clear H2. next. cbn [andb].
  plain Println_keeps H3 p4 H4.
  (* main.go:67-72 *)
  plain Println_keeps H4 p5 H5.
  eapply returns_bind;
    [apply compileIncludedApp_exact, (reached_anchor _ _ _ _ _ _ _ H5) |].
  intros [sinkAppPath sinkErr] p6 (Ea & Ht & Hs). injection Ea as -> ->.
  pose proof (reached_milestone _ _ _ _ _ _ (EBuild _) _ _ I H5 Ht Hs) as H6.
  clear Ht Hs H5 H4 H3. next.
  eapply returns_bind with (R := fun _ => setupState (trace p6) 0 [] 0 0).
  { destruct (buildCmd_Run env "syslogSink");
      [apply Println_keeps | apply returns_ret]; exact (reached_anchor _ _ _ _ _ _ _ H6). }
  intros [] p7 H7. apply (reached_step _ _ _ _ _ _ _ _ _ _ _ _ H6) in H7. clear H6. next.
  plain Println_keeps H7 p8 H8.
  (* main.go:74-79 *)
  eapply returns_bind; [apply createTmpDirs_exact, (reached_anchor _ _ _ _ _ _ _ H8) |].
  intros [[[[[orcTmpDir recentLogsTmpDir] streamingLogsTmpDir] pushTmpDir] sinkTmpDir] e]
    p9 (Ea & He & td & H9).
  cbn in Ea, He. injection Ea as -> -> -> -> ->.
  apply (reached_step _ _ _ _ _ _ _ _ _ _ _ _ H8) in H9. clear H8 H7. next.
  eapply returns_bind;
    [apply (cleared_when_not_made (trace p9) 0 [] td 0
              (fun e => [str "Failed to create temp dir:"; err e])),
       (reached_anchor _ _ _ _ _ _ _ H9) |].
  intros pm p10 (-> & H10). apply (reached_step _ _ _ _ _ _ _ _ _ _ _ _ H9) in H10.
  rewrite He. clear He e H9. next.
  (* main.go:80-90 *)
  eapply returns_bind;
    [apply createBufferedRunner_counts, (reached_anchor _ _ _ _ _ _ _ H10) |].
  intros [[bufferedRunner runnerOutBuf] runnerErrBuf] p11 (Heq & H11).
  injection Heq as -> -> ->. cbn in H11.
  apply (reached_step _ _ _ _ _ _ _ _ _ _ _ _ H10) in H11. clear H10. next.
  eapply returns_bind;
    [eapply createWorkflow_exact, (reached_anchor _ _ _ _ _ _ _ H11) |].
  intros [[pushWorkflow pushOrg] pushApp] p12 (Ea & H12). injection Ea as -> -> ->.
  apply (reached_step _ _ _ _ _ _ _ _ _ _ _ _ H11) in H12. clear H11. next.
  plain Printf_keeps H12 p13 H13.
  eapply returns_bind; [apply RunInSequence_exact, (reached_anchor _ _ _ _ _ _ _ H13) |].
  intros e p14 (-> & Ht & Hs).
  pose proof (reached_milestone _ _ _ _ _ _ (ERunInSequence _ _) _ _ I H13 Ht Hs) as H14.
  clear Ht Hs H13 H12. next.
  eapply returns_bind;
    [apply cleared_when_failed, (reached_anchor _ _ _ _ _ _ _ H14) |].
  intros pm p15 (-> & H15). apply (reached_step _ _ _ _ _ _ _ _ _ _ _ _ H14) in H15.
  clear H14. next.
  (* main.go:92-105 *)
  eapply returns_bind;
    [eapply createWorkflow_exact, (reached_anchor _ _ _ _ _ _ _ H15) |].
  intros [[sinkWorkflow sinkOrg] sinkApp] p16 (Ea & H16). injection Ea as -> -> ->.
  apply (reached_step _ _ _ _ _ _ _ _ _ _ _ _ H15) in H16. clear H15. next.
  plain Printf_keeps H16 p17 H17.
  eapply returns_bind; [apply RunInSequence_exact, (reached_anchor _ _ _ _ _ _ _ H17) |].
  intros e p18 (-> & Ht & Hs).
  pose proof (reached_milestone _ _ _ _ _ _ (ERunInSequence _ _) _ _ I H17 Ht Hs) as H18.
  clear Ht Hs H17 H16. next.
  eapply returns_bind;
    [apply cleared_when_failed, (reached_anchor _ _ _ _ _ _ _ H18) |].
  intros pm p19 (-> & H19). apply (reached_step _ _ _ _ _ _ _ _ _ _ _ _ H18) in H19.
  clear H18. next.
  (* main.go:107-138 *)
  eapply returns_bind;
    [eapply createWorkflow_exact, (reached_anchor _ _ _ _ _ _ _ H19) |].
  intros [[orcWorkflow orcOrg] orcApp] p20 (Ea & H20). injection Ea as -> -> ->.
  apply (reached_step _ _ _ _ _ _ _ _ _ _ _ _ H19) in H20. clear H19. next.
  eapply returns_bind;
    [eapply createMeasurements_exact, (reached_anchor _ _ _ _ _ _ _ H20) |].
  intros measurements p21 (-> & H21).
  apply (reached_step _ _ _ _ _ _ _ _ _ _ _ _ H20) in H21. clear H20. next.
  eapply returns_bind;
    [apply cmdRunner_New_counts, (reached_anchor _ _ _ _ _ _ _ H21) |].
  intros r p22 (-> & H22).
  apply (reached_step _ _ _ _ _ _ _ _ _ _ _ _ H21) in H22. clear H21. next.
  plain Printf_keeps H22 p23 H23.
  eapply returns_bind; [apply orc_Setup_exact, (reached_anchor _ _ _ _ _ _ _ H23) |].
  intros e p24 (-> & Ht & Hs).
  pose proof (reached_milestone _ _ _ _ _ _ (EOrcSetup _ _) _ _ I H23 Ht Hs) as H24.
  clear Ht Hs H23 H22. next.
  eapply returns_bind;
    [apply cleared_when_failed, (reached_anchor _ _ _ _ _ _ _ H24) |].
  intros pm p25 (-> & H25). apply (reached_step _ _ _ _ _ _ _ _ _ _ _ _ H24) in H25.
  clear H24. next.
  apply returns_ret. split; [reflexivity |].
  exists td. exact H25.
Qed.

(** X12.  Whatever fails during setup, [main] reaches [orc.Run] holding: the
    push workflow, made from the first four UUIDs, the path of the main app
    and the command [./app]; the orchestrator, made from the While commands of
    the config, the logger, the main workflow (UUIDs 8 to 11), a runner of
    its own and the four measurements, which use runners 1 to 3; generators
    for the first and the fourth temporary directory.  The runner of setup and
    teardown writes to two buffers, the orchestrator's runner to the
    standard output and error of the process; twelve UUIDs have been drawn. *)
Theorem setup_result (env : Env) (cfg : config.Config) (tr : list Event) :
  exists p' : Process,
    prepare env uptimerLogger cfg (mkProcess tr [] [] 0%nat 0%nat) =
    (Returned (preparedOf env cfg), p') /\
    nth_error (runners p') (bufferedRunner (preparedOf env cfg)) =
      Some (Buffer (runnerOutBuf (preparedOf env cfg)),
            Buffer (runnerErrBuf (preparedOf env cfg))) /\
    nth_error (runners p') (orc_runner (orc (preparedOf env cfg))) =
      Some (os_Stdout, os_Stderr) /\
    runnersOf (orc_measurements (orc (preparedOf env cfg))) = [3; 1; 2]%nat /\
    List.length (runners p') = 5%nat /\
    uuids p' = 12%nat.
Proof.
  destruct (prepare_reaches env cfg tr _ (reached_start tr 0 [] 0 0 [] eq_refl))
    as (s & p' & Heq & -> & td & _ & _ & Hr & _ & Hu).
  exists p'. split; [exact Heq |]. rewrite Hr, Hu. now repeat split.
Qed.

(** X13.  A temporary directory that cannot be made does not stop the setup:
    measurements are disabled, every generator gets the empty CF home, and
    the push, sink and main workflows are still set up, in this order, with
    those generators. *)
Theorem failed_tmp_dirs_do_not_stop_setup (env : Env) (cfg : config.Config)
  (tr : list Event) :
  tmpDirsCreated env = false ->
  exists (s : Prepared) (p' : Process) (evs : list Event),
    prepare env uptimerLogger cfg (mkProcess tr [] [] 0%nat 0%nat) = (Returned s, p') /\
    performMeasurements s = false /\
    orcCmdGenerator s = cfCmdGenerator_New EmptyString /\
    pushCmdGenerator s = cfCmdGenerator_New EmptyString /\
    trace p' = (tr ++ evs)%list /\
    inOrder
      [ ERunInSequence (bufferedRunner s)
          (Setup (pushWorkflow s) (cfCmdGenerator_New EmptyString));
        ERunInSequence (bufferedRunner s)
          ((Setup (sinkWorkflowOf env cfg) (cfCmdGenerator_New EmptyString)
            ++ Push (sinkWorkflowOf env cfg) (cfCmdGenerator_New EmptyString))
           ++ MapRoute (sinkWorkflowOf env cfg) (cfCmdGenerator_New EmptyString))%list;
        EOrcSetup (bufferedRunner s) (cfCmdGenerator_New EmptyString) ]
      evs.
Proof.
  intros Hd.
  destruct (prepare_reaches env cfg tr _ (reached_start tr 0 [] 0 0 [] eq_refl))
    as (s & p' & Heq & -> & td & (evs & Ht & _ & Ho) & _).
  exists (preparedOf env cfg), p', evs. split; [exact Heq |].
  assert (Hn : forall n, tmpDirName env n = EmptyString)
    by (intros n; unfold tmpDirName; now rewrite Hd).
  split.
  { cbn. unfold measurementsEnabled. rewrite Hd, andb_false_r. reflexivity. }
  split; [cbn; now rewrite Hn |]. split; [cbn; now rewrite Hn |].
  split; [exact Ht |].
  apply inOrder_tail, inOrder_tail in Ho. unfold setupSteps in Ho.
  cbn [preparedOf bufferedRunner pushWorkflow].
  rewrite !Hn in Ho. exact Ho.
Qed.

(** X14.  Every run that passes the flag and config checks goes through the
    whole lifecycle, whatever fails on the way: the config file is read, the
    main app and the syslog sink app are built, the push, sink and main
    workflows are set up, [orc.Run] is called, the main workflow and then
    the push workflow are torn down, and the process exits with the code
    of [orc.Run]; [orc.Run] gets true exactly
    when the main app was built, the temporary directories were made and
    the three setups succeeded.  One and the same runner runs setup and
    teardown, and what is torn down is what was set up. *)
Theorem run_goes_through_lifecycle (env : Env) (cfg : config.Config) :
  flag_v env = false ->
  flag_configFile env <> EmptyString ->
  config.Load (ioutil_ReadFile env) (flag_configFile env) = inl cfg ->
  exists final : Process,
    run env = (Exited (fst (orcRun env (measurementsEnabled env))), final) /\
    inOrder (lifecycle env cfg) (trace final).
Proof.
  intros Hv Hc HL.
  destruct (prepare_reaches env cfg [EReadFile (flag_configFile env)] _
              (reached_start _ 0 [] 0 0 [] eq_refl))
    as (s & p' & Heq & -> & td & (evs & Ht & _ & Ho) & _).
  destruct (runAndTearDown_exits env uptimerLogger (preparedOf env cfg) p')
    as (code & final & Hr & -> & l1 & l2 & Htf & _ & _).
  exists final. split.
  - apply String.eqb_neq in Hc.
    unfold run, main. rewrite Hv, Hc. unfold loadConfig. rewrite HL.
    cbv [bind ret emit start trace buffers runners tempDirs uuids app].
    rewrite Heq. exact Hr.
  - rewrite Htf, Ht. unfold lifecycle.
    cbn [preparedOf performMeasurements bufferedRunner orcCmdGenerator pushWorkflow
         pushCmdGenerator].
    rewrite <- app_assoc. cbn [app]. apply inOrder_here.
    apply inOrder_app; [exact Ho |].
    cbn [app]. apply inOrder_here.
    apply inOrder_app_l. cbn [app]. apply inOrder_skip, inOrder_here.
    apply inOrder_app_l. cbn [app]. apply inOrder_here.
    apply inOrder_app_l. cbn [app]. apply inOrder_skip, inOrder_here, inOrder_nil.
Qed.

End LifecycleFacts.

(** ** The further properties on concrete inputs *)

Lemma unary_inj (i j : nat) : unary i = unary j -> i = j.
Proof.
  revert j. induction i as [| i IH]; intros [| j] H; cbn in H;
    try reflexivity; try discriminate H.
  injection H as H. f_equal. now apply IH.
Qed.

Lemma load_failure_exits_1_witness :
  let env := invocation "missing.json" false allBuilt quiet false in
  (flag_v env = false /\
   flag_configFile env <> EmptyString /\
   config.Load (ioutil_ReadFile env) (flag_configFile env) = inr noSuchFile) /\
  run env =
  (Exited 1,
   mkProcess
     [ EReadFile "missing.json";
       ELogPrintln [str "Failed to load config: "; err noSuchFile];
       EExit 1 ]
     [] [] 0%nat 0%nat).
Proof.
  intros env.
  assert (Hv : flag_v env = false) by reflexivity.
  assert (Hc : flag_configFile env <> EmptyString) by discriminate.
  assert (HL : config.Load (ioutil_ReadFile env) (flag_configFile env) = inr noSuchFile)
    by reflexivity.
  split; [split; [exact Hv | split; [exact Hc | exact HL]] |].
  exact (load_failure_exits_1 env noSuchFile Hv Hc HL).
Defined.

Lemma createTmpDirs_all_created_witness :
  let env := invocation "config.json" false allBuilt quiet false in
  (ioutil_TempDir env 0 = inl "/tmp/uptimer0" /\
   ioutil_TempDir env 1 = inl "/tmp/uptimer1" /\
   ioutil_TempDir env 2 = inl "/tmp/uptimer2" /\
   ioutil_TempDir env 3 = inl "/tmp/uptimer3" /\
   ioutil_TempDir env 4 = inl "/tmp/uptimer4") /\
  createTmpDirs env start =
  (Returned ("/tmp/uptimer0", "/tmp/uptimer1", "/tmp/uptimer2", "/tmp/uptimer3",
             "/tmp/uptimer4", None),
   mkProcess (repeat ETempDir 5) [] [] 5%nat 0%nat).
Proof.
  intros env.
  split; [repeat split |].
  exact (createTmpDirs_all_created env start "/tmp/uptimer0" "/tmp/uptimer1"
           "/tmp/uptimer2" "/tmp/uptimer3" "/tmp/uptimer4"
           eq_refl eq_refl eq_refl eq_refl eq_refl).
Defined.

Lemma createTmpDirs_stops_at_first_failure_witness :
  ((2 < 5)%nat /\
   (forall j, (j < 2)%nat ->
              exists d, ioutil_TempDir tmpDirFailure (j + tempDirs start) = inl d) /\
   ioutil_TempDir tmpDirFailure (2 + tempDirs start) = inr noSpace) /\
  createTmpDirs tmpDirFailure start =
  (Returned (EmptyString, EmptyString, EmptyString, EmptyString, EmptyString, Some noSpace),
   mkProcess (repeat ETempDir 3) [] [] 3%nat 0%nat).
Proof.
  assert (Hk : (2 < 5)%nat) by lia.
  assert (Hok : forall j, (j < 2)%nat ->
                  exists d, ioutil_TempDir tmpDirFailure (j + tempDirs start) = inl d).
  { intros [| [| j]] Hj; [eexists; reflexivity | eexists; reflexivity | lia]. }
  assert (He : ioutil_TempDir tmpDirFailure (2 + tempDirs start) = inr noSpace)
    by reflexivity.
  split; [split; [exact Hk | split; [exact Hok | exact He]] |].
  exact (createTmpDirs_stops_at_first_failure tmpDirFailure start 2 noSpace Hk Hok He).
Defined.

Lemma createWorkflow_names_never_shared_witness :
  let p := start in
  let q := mkProcess [] [] [] 0%nat 4%nat in
  ((forall i j, uuid_NewV4 uniqueUuids i = uuid_NewV4 uniqueUuids j -> i = j) /\
   (4 + uuids p <= uuids q)%nat) /\
  exists (w1 w2 : CfWorkflow),
    createWorkflow uniqueUuids None "/go/app" "./app" p =
      (Returned (w1, wf_org w1, wf_appName w1),
       mkProcess (trace p) (buffers p) (runners p) (tempDirs p) (4 + uuids p)) /\
    createWorkflow uniqueUuids None "/go/sink" "./syslogSink" q =
      (Returned (w2, wf_org w2, wf_appName w2),
       mkProcess (trace q) (buffers q) (runners q) (tempDirs q) (4 + uuids q)) /\
    w1 = cfWorkflow_New None
           ("uptimer-org-" ++ uuid_NewV4 uniqueUuids (uuids p))
           ("uptimer-space-" ++ uuid_NewV4 uniqueUuids (2 + uuids p))
           ("uptimer-quota-" ++ uuid_NewV4 uniqueUuids (3 + uuids p))
           ("uptimer-app-" ++ uuid_NewV4 uniqueUuids (1 + uuids p))
           "/go/app" "./app" /\
    w2 = cfWorkflow_New None
           ("uptimer-org-" ++ uuid_NewV4 uniqueUuids (uuids q))
           ("uptimer-space-" ++ uuid_NewV4 uniqueUuids (2 + uuids q))
           ("uptimer-quota-" ++ uuid_NewV4 uniqueUuids (3 + uuids q))
           ("uptimer-app-" ++ uuid_NewV4 uniqueUuids (1 + uuids q))
           "/go/sink" "./syslogSink" /\
    NoDup [ uuid_NewV4 uniqueUuids (uuids p); uuid_NewV4 uniqueUuids (1 + uuids p);
            uuid_NewV4 uniqueUuids (2 + uuids p); uuid_NewV4 uniqueUuids (3 + uuids p) ] /\
    wf_org w1 <> wf_org w2 /\ wf_space w1 <> wf_space w2 /\
    wf_quota w1 <> wf_quota w2 /\ wf_appName w1 <> wf_appName w2.
Proof.
  intros p q.
  assert (Hinj : forall i j, uuid_NewV4 uniqueUuids i = uuid_NewV4 uniqueUuids j -> i = j)
    by exact unary_inj.
  assert (Hpq : (4 + uuids p <= uuids q)%nat) by (cbn; lia).
  split; [split; [exact Hinj | exact Hpq] |].
  exact (createWorkflow_names_never_shared uniqueUuids None None "/go/app" "./app"
           "/go/sink" "./syslogSink" p q Hinj Hpq).
Defined.

Lemma authFailedRetryFunc_survives_appending_witness :
  authFailedRetryFunc ("FAILED " ++ authFailedMessage) EmptyString = true /\
  authFailedRetryFunc (("FAILED " ++ authFailedMessage) ++ " Retrying.")
    (EmptyString ++ "exit status 1") = true.
Proof.
  assert (H : authFailedRetryFunc ("FAILED " ++ authFailedMessage) EmptyString = true)
    by (vm_compute; reflexivity).
  split; [exact H |].
  exact (authFailedRetryFunc_survives_appending ("FAILED " ++ authFailedMessage)
           EmptyString " Retrying." "exit status 1" H).
Defined.

Lemma Load_accepts_files_naming_no_field_witness :
  let data := dq "{ 'verbose': true, 'retries': 3 }" in
  let v := json.Object [("verbose", json.Bool true); ("retries", json.Number "3")] in
  (oddFiles "unknown.json" = inl data /\ json.parse data = Some v /\ namesNoField v) /\
  config.Load oddFiles "unknown.json" = inl config.zeroConfig.
Proof.
  intros data v.
  assert (HR : oddFiles "unknown.json" = inl data) by reflexivity.
  assert (HP : json.parse data = Some v) by (vm_compute; reflexivity).
  assert (Hn : namesNoField v) by (repeat constructor).
  split; [split; [exact HR | split; [exact HP | exact Hn]] |].
  exact (Load_accepts_files_naming_no_field oddFiles "unknown.json" data v HR HP Hn).
Defined.

Lemma Load_rejects_non_object_witness :
  let v := json.Array [json.Number "1"; json.Number "2"] in
  (oddFiles "array.json" = inl "[1, 2]" /\ json.parse "[1, 2]" = Some v /\
   notAnObject v = true) /\
  config.Load oddFiles "array.json" = inr (UnmarshalTypeError "array" "config.Config").
Proof.
  intros v.
  assert (HR : oddFiles "array.json" = inl "[1, 2]") by reflexivity.
  assert (HP : json.parse "[1, 2]" = Some v) by (vm_compute; reflexivity).
  assert (Hn : notAnObject v = true) by reflexivity.
  split; [split; [exact HR | split; [exact HP | exact Hn]] |].
  exact (Load_rejects_non_object oddFiles "array.json" "[1, 2]" v HR HP Hn).
Defined.

Lemma Load_rejects_mistyped_count_witness :
  let data := dq "{ 'allowed_failures': { 'app_pushability': 1.5 } }" in
  let counts := [("app_pushability", json.Number "1.5")] in
  let ms := [("allowed_failures", json.Object counts)] in
  (oddFiles "fraction.json" = inl data /\
   json.parse data = Some (json.Object ms) /\
   In ("allowed_failures", json.Object counts) ms /\
   json.findField config.configFields "allowed_failures" = Some "allowed_failures" /\
   In ("app_pushability", json.Number "1.5") counts /\
   json.findField config.allowedFailuresFields "app_pushability" <> None /\
   notAnInt (json.Number "1.5") = true) /\
  exists e : error, config.Load oddFiles "fraction.json" = inr e.
Proof.
  intros data counts ms.
  assert (HR : oddFiles "fraction.json" = inl data) by reflexivity.
  assert (HP : json.parse data = Some (json.Object ms)) by (vm_compute; reflexivity).
  assert (Hin : In ("allowed_failures", json.Object counts) ms) by (left; reflexivity).
  assert (Hf : json.findField config.configFields "allowed_failures"
               = Some "allowed_failures") by reflexivity.
  assert (Hin' : In ("app_pushability", json.Number "1.5") counts) by (left; reflexivity).
  assert (Hf' : json.findField config.allowedFailuresFields "app_pushability" <> None)
    by discriminate.
  assert (Hv : notAnInt (json.Number "1.5") = true) by reflexivity.
  split; [repeat split; assumption |].
  exact (Load_rejects_mistyped_count oddFiles "fraction.json" data ms counts
           "allowed_failures" "app_pushability" (json.Number "1.5")
           HR HP Hin Hf Hin' Hf' Hv).
Defined.

Lemma failed_tmp_dirs_do_not_stop_setup_witness :
  tmpDirsCreated tmpDirFailure = false /\
  exists (s : Prepared) (p' : Process) (evs : list Event),
    prepare tmpDirFailure uptimerLogger sampleLoaded (mkProcess [] [] [] 0%nat 0%nat) =
      (Returned s, p') /\
    performMeasurements s = false /\
    orcCmdGenerator s = cfCmdGenerator_New EmptyString /\
    pushCmdGenerator s = cfCmdGenerator_New EmptyString /\
    trace p' = ([] ++ evs)%list /\
    inOrder
      [ ERunInSequence (bufferedRunner s)
          (Setup (pushWorkflow s) (cfCmdGenerator_New EmptyString));
        ERunInSequence (bufferedRunner s)
          ((Setup (sinkWorkflowOf tmpDirFailure sampleLoaded)
              (cfCmdGenerator_New EmptyString)
            ++ Push (sinkWorkflowOf tmpDirFailure sampleLoaded)
                 (cfCmdGenerator_New EmptyString))
           ++ MapRoute (sinkWorkflowOf tmpDirFailure sampleLoaded)
                (cfCmdGenerator_New EmptyString))%list;
        EOrcSetup (bufferedRunner s) (cfCmdGenerator_New EmptyString) ]
      evs.
Proof.
  assert (Hd : tmpDirsCreated tmpDirFailure = false) by reflexivity.
  split; [exact Hd |].
  exact (failed_tmp_dirs_do_not_stop_setup tmpDirFailure sampleLoaded [] Hd).
Defined.

Lemma run_goes_through_lifecycle_witness :
  let env := invocation "config.json" false appBuildFails failing false in
  (flag_v env = false /\
   flag_configFile env <> EmptyString /\
   config.Load (ioutil_ReadFile env) (flag_configFile env) = inl sampleLoaded) /\
  exists final : Process,
    run env = (Exited (fst (orcRun env (measurementsEnabled env))), final) /\
    inOrder (lifecycle env sampleLoaded) (trace final).
Proof.
  intros env.
  assert (Hv : flag_v env = false) by reflexivity.
  assert (Hc : flag_configFile env <> EmptyString) by discriminate.
  assert (HL : config.Load (ioutil_ReadFile env) (flag_configFile env) = inl sampleLoaded)
    by (vm_compute; reflexivity).
  split; [split; [exact Hv | split; [exact Hc | exact HL]] |].
  exact (run_goes_through_lifecycle env sampleLoaded Hv Hc HL).
Defined.
